(** * Forgetting metrics of avalanche/evaluation/metrics/forgetting.py

    A shallow embedding of the three classes of the module:
    [Forgetting] (the snapshot tracker), [ExperienceForgetting] and
    [StreamForgetting] (the two plugin metrics driven by the hooks of the
    training loop), followed by the properties of the specification.

    Conventions of the embedding:
    - Python floats are exact rationals ([Qc]);
    - a Python dict is a [gmap], a Python set a [gset]; the key of a dict
      entry is an experience id or [None], so keys are [option Z];
    - a Python object is a record, a method a function from the record to
      the updated record; a method that can raise returns in [res]. *)

From Stdlib Require Import QArith Qcanon.
From stdpp Require Import base numbers option list gmap strings.

Local Open Scope Qc_scope.

(** ** Exceptions *)

Inductive exn := KeyError | TypeError.

Inductive res (A : Type) :=
| Ok (a : A)
| Raise (e : exn).
Arguments Ok {A} a.
Arguments Raise {A} e.

#[global] Instance res_bind : MBind res := λ A B f m,
  match m with
  | Ok a => f a
  | Raise e => Raise e
  end.

Fixpoint foldM {A B : Type} (f : B → A → res B) (b : B) (l : list A) : res B :=
  match l with
  | [] => Ok b
  | a :: l' => b' ← f b a; foldM f b' l'
  end.

(** ** Python values *)

(** A key of the dicts: [Some i] is the experience id [i], [None] is
    Python's [None] (hashable, hence a legal dict key). *)
Abbreviation pykey := (option Z).

(** The values [Forgetting.result] returns:
    [Union[float, None, Dict[int, float]]]. *)
Inductive pyvalue :=
| VFloat (x : Qc)
| VNone
| VDict (d : gmap pykey Qc).

Definition is_not_None (v : pyvalue) : bool :=
  match v with
  | VNone => false
  | _ => true
  end.

(** [d[k]]: raises [KeyError] when [k] is not a key of [d]. *)
Definition getitem (d : gmap pykey Qc) (k : pykey) : res Qc :=
  match d !! k with
  | Some v => Ok v
  | None => Raise KeyError
  end.

(** [k in d] *)
Definition contains (d : gmap pykey Qc) (k : pykey) : bool :=
  bool_decide (k ∈ dom d).

(** ** The standalone [Forgetting] metric (the snapshot tracker) *)

Module Forgetting.

Record t := mk {
  initial : gmap pykey Qc;
  last : gmap pykey Qc
}.

(** [__init__] *)
Definition new : t := {| initial := ∅; last := ∅ |}.

Definition update_initial (self : t) (k : pykey) (v : Qc) : t :=
  {| initial := <[k := v]> (initial self); last := last self |}.

Definition update_last (self : t) (k : pykey) (v : Qc) : t :=
  {| initial := initial self; last := <[k := v]> (last self) |}.

Definition update (self : t) (k : pykey) (v : Qc) (init : bool) : t :=
  if init then update_initial self k v else update_last self k v.

(** The body of the loop [for k in both_keys]. *)
Definition result_entry (self : t) (forgetting : gmap pykey Qc) (k : pykey)
  : res (gmap pykey Qc) :=
  a ← getitem (initial self) k;
  b ← getitem (last self) k;
  Ok (<[k := a - b]> forgetting).

Definition result (self : t) (k : pykey) : res pyvalue :=
  match k with
  | Some _ =>
      if contains (initial self) k && contains (last self) k
      then a ← getitem (initial self) k;
           b ← getitem (last self) k;
           Ok (VFloat (a - b))
      else Ok VNone
  | None =>
      let ik : gset pykey := dom (initial self) in
      let both_keys := elements (ik ∩ dom (last self)) in
      forgetting ← foldM (result_entry self) ∅ both_keys;
      Ok (VDict forgetting)
  end.

Definition reset_last (self : t) : t :=
  {| initial := initial self; last := ∅ |}.

Definition reset (self : t) : t :=
  {| initial := ∅; last := ∅ |}.

(** The mutating methods, as data, to speak of sequences of calls. *)
Inductive op :=
| UpdateInitial (k : pykey) (v : Qc)
| UpdateLast (k : pykey) (v : Qc)
| Update (k : pykey) (v : Qc) (init : bool)
| ResetLast
| Reset.

Definition call (self : t) (o : op) : t :=
  match o with
  | UpdateInitial k v => update_initial self k v
  | UpdateLast k v => update_last self k v
  | Update k v init => update self k v init
  | ResetLast => reset_last self
  | Reset => reset self
  end.

Definition calls (self : t) (os : list op) : t := foldl call self os.

End Forgetting.

(** ** Collaborators of the plugin metrics

    [Mean], [Accuracy], the naming helpers and the global counter are
    imported by forgetting.py from other modules of the package. *)

(** Modelled from the spec: the running mean accumulator
    (avalanche.evaluation.metrics.Mean) "accumulates weighted scalar samples;
    reset() clears; result() returns their weighted mean, or an undefined
    value if no samples were added". *)
Module Mean.

(** The samples added so far, in the order they came, each with its
    weight. *)
Record t := mk { samples : list (Qc * Qc) }.

Definition new : t := {| samples := [] |}.

Definition update (self : t) (value weight : Qc) : t :=
  {| samples := samples self ++ [(value, weight)] |}.

Definition summed (self : t) : Qc :=
  foldr (λ s acc, s.1 * s.2 + acc) 0 (samples self).

Definition weight (self : t) : Qc :=
  foldr (λ s acc, s.2 + acc) 0 (samples self).

Definition result (self : t) : option Qc :=
  match samples self with
  | [] => None
  | _ => Some (summed self / weight self)
  end.

Definition reset (self : t) : t := {| samples := [] |}.

End Mean.

(** The running accuracy accumulator (avalanche.evaluation.metrics.Accuracy),
    through the three methods forgetting.py calls.  [Y] and [L] are the types
    of [strategy.mb_y] and [strategy.logits]. *)
Class Accuracy (Y L A : Type) := {
  acc_new : A;
  acc_reset : A → A;
  acc_update : A → Y → L → A;
  acc_result : A → Qc;
  (** "reset() clears it": a reset accumulator is as a new one *)
  acc_reset_new : ∀ a, acc_reset a = acc_new
}.

(** What a hook reads from its [strategy] argument and from the
    environment: [strategy.experience.current_experience], [strategy.mb_y],
    [strategy.logits], the strings the naming helpers [get_metric_name],
    [phase_and_task] and [stream_type] return for it, and the value
    [get_global_counter()] has at the call. *)
Record Strategy (Y L : Type) := {
  current_experience : Z;
  mb_y : Y;
  logits : L;
  metric_name_exp : string;
  phase_name : string;
  stream_type : string;
  global_counter : Z
}.
Arguments current_experience {Y L} _.
Arguments mb_y {Y L} _.
Arguments logits {Y L} _.
Arguments metric_name_exp {Y L} _.
Arguments phase_name {Y L} _.
Arguments stream_type {Y L} _.
Arguments global_counter {Y L} _.

(** The metric object a result record comes from. *)
Inductive metric := ExperienceForgettingMetric | StreamForgettingMetric.

(** [MetricValue(origin, name, value, x_plot)] *)
Record MetricValue (V : Type) := {
  origin : metric;
  name : string;
  value : V;
  x_plot : Z
}.
Arguments origin {V} _.
Arguments name {V} _.
Arguments value {V} _.
Arguments x_plot {V} _.

(** The hooks of the training loop a plugin metric is called on. *)
Inductive hook :=
| BeforeTrainingExp
| BeforeEval
| BeforeEvalExp
| AfterEvalIteration
| AfterEvalExp
| AfterEval.

#[global] Instance hook_eq_dec : EqDecision hook.
Proof. solve_decision. Defined.

(** [MetricResult = Optional[List[MetricValue]]]: the records a hook hands
    to the reporter. *)
Definition emitted {V : Type} (r : option (list (MetricValue V))) : list (MetricValue V) :=
  default [] r.

(** ** The [ExperienceForgetting] plugin metric *)

Module ExperienceForgetting.
Section WithAccuracy.
Context {Y L A : Type} `{!Accuracy Y L A}.

Record t := mk {
  forgetting : Forgetting.t;
  _current_accuracy : A;
  eval_exp_id : pykey;
  train_exp_id : pykey
}.

(** [__init__] *)
Definition new : t :=
  {| forgetting := Forgetting.new;
     _current_accuracy := acc_new;
     eval_exp_id := None;
     train_exp_id := None |}.

Definition with_forgetting (self : t) (f : Forgetting.t) : t :=
  {| forgetting := f;
     _current_accuracy := _current_accuracy self;
     eval_exp_id := eval_exp_id self;
     train_exp_id := train_exp_id self |}.

Definition reset (self : t) : t :=
  with_forgetting self (Forgetting.reset (forgetting self)).

Definition reset_last_accuracy (self : t) : t :=
  with_forgetting self (Forgetting.reset_last (forgetting self)).

Definition update (self : t) (k : pykey) (v : Qc) (init : bool) : t :=
  with_forgetting self (Forgetting.update (forgetting self) k v init).

Definition result (self : t) (k : pykey) : res pyvalue :=
  Forgetting.result (forgetting self) k.

Definition before_training_exp (self : t) (strategy : Strategy Y L) : t :=
  {| forgetting := forgetting self;
     _current_accuracy := _current_accuracy self;
     eval_exp_id := eval_exp_id self;
     train_exp_id := Some (current_experience strategy) |}.

Definition before_eval (self : t) (strategy : Strategy Y L) : t :=
  reset_last_accuracy self.

Definition before_eval_exp (self : t) (strategy : Strategy Y L) : t :=
  {| forgetting := forgetting self;
     _current_accuracy := acc_reset (_current_accuracy self);
     eval_exp_id := eval_exp_id self;
     train_exp_id := train_exp_id self |}.

Definition after_eval_iteration (self : t) (strategy : Strategy Y L) : t :=
  {| forgetting := forgetting self;
     _current_accuracy :=
       acc_update (_current_accuracy self) (mb_y strategy) (logits strategy);
     eval_exp_id := Some (current_experience strategy);
     train_exp_id := train_exp_id self |}.

Definition _package_result (self : t) (strategy : Strategy Y L)
  : res (list (MetricValue pyvalue)) :=
  forgetting ← result self (eval_exp_id self);
  let metric_name := metric_name_exp strategy in
  let plot_x_position := global_counter strategy in
  Ok [ {| origin := ExperienceForgettingMetric;
          name := metric_name;
          value := forgetting;
          x_plot := plot_x_position |} ].

Definition after_eval_exp (self : t) (strategy : Strategy Y L)
  : res (t * option (list (MetricValue pyvalue))) :=
  let self :=
    if decide (train_exp_id self = eval_exp_id self)
    then update self (eval_exp_id self) (acc_result (_current_accuracy self)) true
    else update self (eval_exp_id self) (acc_result (_current_accuracy self)) false in
  r ← result self (eval_exp_id self);
  if is_not_None r
  then records ← _package_result self strategy; Ok (self, Some records)
  else Ok (self, None).

(** The call of one hook; [after_eval] is not overridden and does
    nothing. *)
Definition on (h : hook) (self : t) (strategy : Strategy Y L)
  : res (t * option (list (MetricValue pyvalue))) :=
  match h with
  | BeforeTrainingExp => Ok (before_training_exp self strategy, None)
  | BeforeEval => Ok (before_eval self strategy, None)
  | BeforeEvalExp => Ok (before_eval_exp self strategy, None)
  | AfterEvalIteration => Ok (after_eval_iteration self strategy, None)
  | AfterEvalExp => after_eval_exp self strategy
  | AfterEval => Ok (self, None)
  end.

(** A sequence of hook calls, with the records emitted on the way. *)
Fixpoint run (self : t) (events : list (hook * Strategy Y L))
  : res (t * list (MetricValue pyvalue)) :=
  match events with
  | [] => Ok (self, [])
  | (h, strategy) :: events' =>
      '(self', r) ← on h self strategy;
      '(self'', rs) ← run self' events';
      Ok (self'', emitted r ++ rs)
  end.

End WithAccuracy.
Arguments t A : clear implicits.
End ExperienceForgetting.

(** ** The [StreamForgetting] plugin metric *)

(** [float(value)] at the entry of the mean accumulator: a sample that is
    not a scalar is not in its domain. *)
Definition as_float (v : pyvalue) : res Qc :=
  match v with
  | VFloat x => Ok x
  | _ => Raise TypeError
  end.

Module StreamForgetting.
Section WithAccuracy.
Context {Y L A : Type} `{!Accuracy Y L A}.

Record t := mk {
  stream_forgetting : Mean.t;
  forgetting : Forgetting.t;
  _current_accuracy : A;
  eval_exp_id : pykey;
  train_exp_id : pykey
}.

(** [__init__] *)
Definition new : t :=
  {| stream_forgetting := Mean.new;
     forgetting := Forgetting.new;
     _current_accuracy := acc_new;
     eval_exp_id := None;
     train_exp_id := None |}.

Definition with_forgetting (self : t) (f : Forgetting.t) : t :=
  {| stream_forgetting := stream_forgetting self;
     forgetting := f;
     _current_accuracy := _current_accuracy self;
     eval_exp_id := eval_exp_id self;
     train_exp_id := train_exp_id self |}.

Definition with_stream_forgetting (self : t) (m : Mean.t) : t :=
  {| stream_forgetting := m;
     forgetting := forgetting self;
     _current_accuracy := _current_accuracy self;
     eval_exp_id := eval_exp_id self;
     train_exp_id := train_exp_id self |}.

Definition reset (self : t) : t :=
  let self := with_forgetting self (Forgetting.reset (forgetting self)) in
  with_stream_forgetting self (Mean.reset (stream_forgetting self)).

Definition reset_last_accuracy (self : t) : t :=
  with_forgetting self (Forgetting.reset_last (forgetting self)).

Definition exp_update (self : t) (k : pykey) (v : Qc) (init : bool) : t :=
  with_forgetting self (Forgetting.update (forgetting self) k v init).

Definition exp_result (self : t) (k : pykey) : res pyvalue :=
  Forgetting.result (forgetting self) k.

Definition result (self : t) (k : pykey) : option Qc :=
  Mean.result (stream_forgetting self).

Definition before_training_exp (self : t) (strategy : Strategy Y L) : t :=
  {| stream_forgetting := stream_forgetting self;
     forgetting := forgetting self;
     _current_accuracy := _current_accuracy self;
     eval_exp_id := eval_exp_id self;
     train_exp_id := Some (current_experience strategy) |}.

Definition before_eval (self : t) (strategy : Strategy Y L) : t :=
  let self := reset_last_accuracy self in
  with_stream_forgetting self (Mean.reset (stream_forgetting self)).

Definition before_eval_exp (self : t) (strategy : Strategy Y L) : t :=
  {| stream_forgetting := stream_forgetting self;
     forgetting := forgetting self;
     _current_accuracy := acc_reset (_current_accuracy self);
     eval_exp_id := eval_exp_id self;
     train_exp_id := train_exp_id self |}.

Definition after_eval_iteration (self : t) (strategy : Strategy Y L) : t :=
  {| stream_forgetting := stream_forgetting self;
     forgetting := forgetting self;
     _current_accuracy :=
       acc_update (_current_accuracy self) (mb_y strategy) (logits strategy);
     eval_exp_id := Some (current_experience strategy);
     train_exp_id := train_exp_id self |}.

Definition after_eval_exp (self : t) (strategy : Strategy Y L)
  : res (t * option (list (MetricValue (option Qc)))) :=
  let self :=
    if decide (train_exp_id self = eval_exp_id self)
    then exp_update self (eval_exp_id self) (acc_result (_current_accuracy self)) true
    else exp_update self (eval_exp_id self) (acc_result (_current_accuracy self)) false in
  r ← exp_result self (eval_exp_id self);
  if is_not_None r
  then exp_forgetting ← exp_result self (eval_exp_id self);
       sample ← as_float exp_forgetting;
       Ok (with_stream_forgetting self
             (Mean.update (stream_forgetting self) sample 1), None)
  else Ok (self, None).

Definition _package_result (self : t) (strategy : Strategy Y L)
  : list (MetricValue (option Qc)) :=
  let metric_value := result self None in
  let metric_name :=
    ("StreamForgetting" +:+ "/" +:+ phase_name strategy +:+ "_phase/"
       +:+ stream_type strategy +:+ "_stream")%string in
  let plot_x_position := global_counter strategy in
  [ {| origin := StreamForgettingMetric;
       name := metric_name;
       value := metric_value;
       x_plot := plot_x_position |} ].

Definition after_eval (self : t) (strategy : Strategy Y L)
  : t * option (list (MetricValue (option Qc))) :=
  (self, Some (_package_result self strategy)).

Definition on (h : hook) (self : t) (strategy : Strategy Y L)
  : res (t * option (list (MetricValue (option Qc)))) :=
  match h with
  | BeforeTrainingExp => Ok (before_training_exp self strategy, None)
  | BeforeEval => Ok (before_eval self strategy, None)
  | BeforeEvalExp => Ok (before_eval_exp self strategy, None)
  | AfterEvalIteration => Ok (after_eval_iteration self strategy, None)
  | AfterEvalExp => after_eval_exp self strategy
  | AfterEval => Ok (after_eval self strategy)
  end.

Fixpoint run (self : t) (events : list (hook * Strategy Y L))
  : res (t * list (MetricValue (option Qc))) :=
  match events with
  | [] => Ok (self, [])
  | (h, strategy) :: events' =>
      '(self', r) ← on h self strategy;
      '(self'', rs) ← run self' events';
      Ok (self'', emitted r ++ rs)
  end.

End WithAccuracy.
Arguments t A : clear implicits.
End StreamForgetting.

(** ** Sequences of hook calls

    The training loop calls the hooks in the order
    before-training-experience, before-eval,
    (before-eval-experience, eval iterations, after-eval-experience)*,
    after-eval.  An evaluated experience is its id with its minibatches. *)

Section Traces.
Context {Y L : Type}.

(** The strategy as a hook sees it while experience [k] is current. *)
Definition at_experience (env : Strategy Y L) (k : Z) : Strategy Y L :=
  {| current_experience := k;
     mb_y := mb_y env;
     logits := logits env;
     metric_name_exp := metric_name_exp env;
     phase_name := phase_name env;
     stream_type := stream_type env;
     global_counter := global_counter env |}.

(** The strategy after the iteration on minibatch [mb] of experience [k]. *)
Definition at_iteration (env : Strategy Y L) (k : Z) (mb : Y * L) : Strategy Y L :=
  {| current_experience := k;
     mb_y := mb.1;
     logits := mb.2;
     metric_name_exp := metric_name_exp env;
     phase_name := phase_name env;
     stream_type := stream_type env;
     global_counter := global_counter env |}.

Definition eval_exp_events (env : Strategy Y L) (e : Z * list (Y * L))
  : list (hook * Strategy Y L) :=
  (BeforeEvalExp, at_experience env e.1)
    :: map (λ mb, (AfterEvalIteration, at_iteration env e.1 mb)) e.2
    ++ [(AfterEvalExp, at_experience env e.1)].

Definition eval_events (env : Strategy Y L) (exps : list (Z * list (Y * L)))
  : list (hook * Strategy Y L) :=
  (BeforeEval, env) :: concat (map (eval_exp_events env) exps) ++ [(AfterEval, env)].

(** Experience [k] is recorded as trained by a sequence of hook calls when
    some after-eval-experience call finds [k] both the last experience
    passed to before-training-experience ([tr]) and the last evaluated
    one ([ev]). *)
Fixpoint recorded_as_trained (k : Z) (tr ev : pykey)
    (events : list (hook * Strategy Y L)) : bool :=
  match events with
  | [] => false
  | (h, strategy) :: events' =>
      match h with
      | BeforeTrainingExp =>
          recorded_as_trained k (Some (current_experience strategy)) ev events'
      | AfterEvalIteration =>
          recorded_as_trained k tr (Some (current_experience strategy)) events'
      | AfterEvalExp =>
          (bool_decide (tr = Some k) && bool_decide (ev = Some k))
          || recorded_as_trained k tr ev events'
      | _ => recorded_as_trained k tr ev events'
      end
  end.

(** Every after-eval-experience call comes after an eval iteration
    ([seen]: an iteration took place already). *)
Fixpoint iterations_first (seen : bool) (events : list (hook * Strategy Y L)) : bool :=
  match events with
  | [] => true
  | (h, _) :: events' =>
      match h with
      | AfterEvalIteration => iterations_first true events'
      | AfterEvalExp => seen && iterations_first seen events'
      | _ => iterations_first seen events'
      end
  end.

End Traces.

(** The accuracy accumulated over the minibatches of one experience. *)
Definition accuracy_of {Y L A : Type} `{!Accuracy Y L A} (mbs : list (Y * L)) : Qc :=
  acc_result (foldl (λ a mb, acc_update a mb.1 mb.2) acc_new mbs).

(** The unweighted mean of a list of values, undefined for no value. *)
Definition mean_of (l : list Qc) : option Qc :=
  match l with
  | [] => None
  | _ => Some (foldr Qcplus 0 l / Qc_of_Z (Z.of_nat (length l)))
  end.

(** The scalar values among the values of result records. *)
Definition floats (rs : list (MetricValue pyvalue)) : list Qc :=
  omap (λ r, match value r with VFloat x => Some x | _ => None end) rs.

(** The calls of [Forgetting] that insert an entry. *)
Definition is_insert (o : Forgetting.op) : bool :=
  match o with
  | Forgetting.UpdateInitial _ _ | Forgetting.UpdateLast _ _
  | Forgetting.Update _ _ _ => true
  | _ => false
  end.

(** The calls of [Forgetting] that write the last value of [k]. *)
Definition writes_last (k : pykey) (o : Forgetting.op) : bool :=
  match o with
  | Forgetting.UpdateLast k' _ | Forgetting.Update k' _ false => bool_decide (k' = k)
  | _ => false
  end.

(** Modelled from the spec: an accuracy accumulator that "accumulates
    (prediction, label) pairs for the current evaluation scope; reset()
    clears it; result() returns a scalar", the share of the pairs that
    agree. *)
Definition pair_accuracy_result (pairs : list (Z * Z)) : Qc :=
  match pairs with
  | [] => 0
  | _ => Q2Qc (Z.of_nat (length (filter (λ p, p.1 = p.2) pairs))
                 # Pos.of_nat (length pairs))
  end.

#[global] Instance pair_accuracy : Accuracy (list Z) (list Z) (list (Z * Z)) :=
  {| acc_new := [];
     acc_reset := λ _, [];
     acc_update := λ a y l, a ++ zip y l;
     acc_result := pair_accuracy_result;
     acc_reset_new := λ _, eq_refl |}.

(** The difference [initial[k] - last[k]], defined for the keys of both
    dicts. *)
Definition difference (self : Forgetting.t) (k : pykey) : option Qc :=
  match Forgetting.initial self !! k, Forgetting.last self !! k with
  | Some a, Some b => Some (a - b)
  | _, _ => None
  end.

(** The keys a call inserts in the initial dict ([init = true]) or in the
    last dict ([init = false]). *)
Definition inserted (init : bool) (o : Forgetting.op) : gset pykey :=
  match o with
  | Forgetting.UpdateInitial k _ => if init then {[k]} else ∅
  | Forgetting.UpdateLast k _ => if init then ∅ else {[k]}
  | Forgetting.Update k _ i => if decide (i = init) then {[k]} else ∅
  | _ => ∅
  end.

(** Calls and queries in sequence: the results of the queries, in order. *)
Fixpoint observe (self : Forgetting.t) (acts : list (Forgetting.op + pykey))
  : list (res pyvalue) :=
  match acts with
  | [] => []
  | inl o :: acts' => observe (Forgetting.call self o) acts'
  | inr q :: acts' => Forgetting.result self q :: observe self acts'
  end.

(** ** Auxiliary definitions on the experience aggregator *)

Section ExperienceDefinitions.
Context {Y L A : Type} `{!Accuracy Y L A}.
Import ExperienceForgetting.

Implicit Types (self : ExperienceForgetting.t A) (strategy env : Strategy Y L).

(** The record [_package_result] builds for the value [v]. *)
Definition exp_record strategy (v : pyvalue) : MetricValue pyvalue :=
  {| origin := ExperienceForgettingMetric;
     name := metric_name_exp strategy;
     value := v;
     x_plot := global_counter strategy |}.

(** The tracker after [after_eval_exp]. *)
Definition recorded self : Forgetting.t :=
  Forgetting.update (forgetting self) (eval_exp_id self)
    (acc_result (_current_accuracy self))
    (bool_decide (train_exp_id self = eval_exp_id self)).

(** The state after the eval iterations on the minibatches [mbs] of
    experience [k]. *)
Definition iterated self env (k : Z) (mbs : list (Y * L)) : ExperienceForgetting.t A :=
  foldl (λ s mb, after_eval_iteration s (at_iteration env k mb)) self mbs.

End ExperienceDefinitions.

(** The tracker after the evaluation of experience [k] with accuracy [v],
    when [train] is the last experience passed to before-training. *)
Definition evaluated (f : Forgetting.t) (train : pykey) (k : Z) (v : Qc) : Forgetting.t :=
  Forgetting.update f (Some k) v (bool_decide (train = Some k)).

(** The hooks of a sequence of calls are not [h]. *)
Definition without {Y L : Type} (h : hook) (events : list (hook * Strategy Y L)) : Prop :=
  Forall (λ e, e.1 ≠ h) events.


(** ** Auxiliary definitions on the stream aggregator *)

Section StreamDefinitions.
Context {Y L A : Type} `{!Accuracy Y L A}.
Import StreamForgetting.

Implicit Types (self : StreamForgetting.t A) (strategy env : Strategy Y L).

(** The record [_package_result] builds for the value [v]. *)
Definition stream_record strategy (v : option Qc) : MetricValue (option Qc) :=
  {| origin := StreamForgettingMetric;
     name := ("StreamForgetting/" +:+ phase_name strategy +:+ "_phase/"
                +:+ stream_type strategy +:+ "_stream")%string;
     value := v;
     x_plot := global_counter strategy |}.

(** The tracker after [after_eval_exp]. *)
Definition stream_recorded self : Forgetting.t :=
  Forgetting.update (forgetting self) (eval_exp_id self)
    (acc_result (_current_accuracy self))
    (bool_decide (train_exp_id self = eval_exp_id self)).

(** The state after the eval iterations on the minibatches [mbs] of
    experience [k]. *)
Definition stream_iterated self env (k : Z) (mbs : list (Y * L)) : StreamForgetting.t A :=
  foldl (λ s mb, after_eval_iteration s (at_iteration env k mb)) self mbs.

(** The experience aggregator with the tracker, the accumulator and the
    ids of a stream aggregator. *)
Definition as_experience self : ExperienceForgetting.t A :=
  {| ExperienceForgetting.forgetting := forgetting self;
     ExperienceForgetting._current_accuracy := _current_accuracy self;
     ExperienceForgetting.eval_exp_id := eval_exp_id self;
     ExperienceForgetting.train_exp_id := train_exp_id self |}.

(** The mean accumulator fed with the value [v] when it is defined. *)
Definition fed (m : Mean.t) (v : option Qc) : Mean.t :=
  match v with
  | Some x => Mean.update m x 1
  | None => m
  end.

End StreamDefinitions.

(** ** A concrete scenario

    Minibatches of ten samples for [pair_accuracy], nine, eight, seven and
    five of them right, and the strategy of an evaluation on a test
    stream. *)

Definition ten_labels : list Z := [0; 1; 2; 3; 4; 5; 6; 7; 8; 9]%Z.

Definition mb_090 : list Z * list Z := (ten_labels, [0; 1; 2; 3; 4; 5; 6; 7; 8; 0]%Z).
Definition mb_080 : list Z * list Z := (ten_labels, [0; 1; 2; 3; 4; 5; 6; 7; 0; 0]%Z).
Definition mb_070 : list Z * list Z := (ten_labels, [0; 1; 2; 3; 4; 5; 6; 0; 0; 0]%Z).
Definition mb_050 : list Z * list Z := (ten_labels, [0; 1; 2; 3; 4; 0; 0; 0; 0; 0]%Z).

Definition test_env : Strategy (list Z) (list Z) :=
  {| current_experience := 0;
     mb_y := [];
     logits := [];
     metric_name_exp := "ExperienceForgetting/eval_phase/test_stream";
     phase_name := "eval";
     stream_type := "test";
     global_counter := 7 |}.

Definition exp_new : ExperienceForgetting.t (list (Z * Z)) :=
  @ExperienceForgetting.new _ _ _ pair_accuracy.

Definition stream_new : StreamForgetting.t (list (Z * Z)) :=
  @StreamForgetting.new _ _ _ pair_accuracy.

(** Experiences 0 and 1 with the initial values 0.9 and 0.8. *)
Definition exp_trained : ExperienceForgetting.t (list (Z * Z)) :=
  ExperienceForgetting.update
    (ExperienceForgetting.update exp_new (Some 0%Z) (Q2Qc (9 # 10)) true)
    (Some 1%Z) (Q2Qc (8 # 10)) true.

Definition stream_trained : StreamForgetting.t (list (Z * Z)) :=
  StreamForgetting.exp_update
    (StreamForgetting.exp_update stream_new (Some 0%Z) (Q2Qc (9 # 10)) true)
    (Some 1%Z) (Q2Qc (8 # 10)) true.

(** Two rounds of training and evaluation in which experience 5 is
    evaluated and never trained on, up to its second evaluation. *)
Definition untrained_events : list (hook * Strategy (list Z) (list Z)) :=
  (BeforeTrainingExp, at_experience test_env 0)
    :: eval_events test_env [(0%Z, [mb_090]); (5%Z, [mb_080])]
    ++ (BeforeTrainingExp, at_experience test_env 1)
    :: (BeforeEval, test_env)
    :: eval_exp_events test_env (0%Z, [mb_070])
    ++ [(BeforeEvalExp, at_experience test_env 5);
        (AfterEvalIteration, at_iteration test_env 5 mb_080)].

(** ** The selector [forgetting_metrics] *)

(** A plugin metric of the list [forgetting_metrics] returns. *)
Inductive plugin_metric (A : Type) :=
| ExperiencePlugin (m : ExperienceForgetting.t A)
| StreamPlugin (m : StreamForgetting.t A).
Arguments ExperiencePlugin {A} m.
Arguments StreamPlugin {A} m.

Definition forgetting_metrics {Y L A : Type} `{!Accuracy Y L A}
    (experience stream : bool) : list (plugin_metric A) :=
  let metrics := [] in
  let metrics :=
    if experience then metrics ++ [ExperiencePlugin ExperienceForgetting.new]
    else metrics in
  let metrics :=
    if stream then metrics ++ [StreamPlugin StreamForgetting.new]
    else metrics in
  metrics.

Definition is_experience_plugin {A : Type} (p : plugin_metric A) : bool :=
  match p with
  | ExperiencePlugin _ => true
  | StreamPlugin _ => false
  end.

(** ** The experience of the last call of a hook *)

(** The experience that is current at the last call of the hook [h] among
    [events], [k0] when [h] is not called. *)
Definition last_experience {Y L : Type} (h : hook) (k0 : pykey)
    (events : list (hook * Strategy Y L)) : pykey :=
  foldl (λ k e, if decide (e.1 = h) then Some (current_experience e.2) else k)
    k0 events.

(** Further states of the scenario: [exp_trained] during the evaluation of
    experience 0, right after an eval iteration, and after a training on
    experience 0. *)
Definition exp_evaluating : ExperienceForgetting.t (list (Z * Z)) :=
  ExperienceForgetting.after_eval_iteration exp_trained (at_iteration test_env 0 mb_070).

Definition exp_retrained : ExperienceForgetting.t (list (Z * Z)) :=
  ExperienceForgetting.before_training_exp exp_trained (at_experience test_env 0).
(** * Properties *)

(** ** The snapshot tracker *)

Lemma contains_true d k : contains d k = true ↔ is_Some (d !! k).
Proof.
  unfold contains. rewrite bool_decide_eq_true. apply elem_of_dom.
Qed.

Lemma contains_false d k : contains d k = false ↔ d !! k = None.
Proof.
  unfold contains. rewrite bool_decide_eq_false, elem_of_dom.
  rewrite <- eq_None_not_Some. done.
Qed.

Lemma result_of_key (self : Forgetting.t) (i : Z) :
  Forgetting.result self (Some i) =
  Ok (match difference self (Some i) with
      | Some x => VFloat x
      | None => VNone
      end).
Proof.
  unfold Forgetting.result, difference, getitem.
  destruct (Forgetting.initial self !! Some i) as [a|] eqn:Hi.
  - assert (contains (Forgetting.initial self) (Some i) = true) as ->
      by (apply contains_true; eauto).
    destruct (Forgetting.last self !! Some i) as [b|] eqn:Hl.
    + assert (contains (Forgetting.last self) (Some i) = true) as ->
        by (apply contains_true; eauto).
      reflexivity.
    + assert (contains (Forgetting.last self) (Some i) = false) as ->
        by (by apply contains_false).
      reflexivity.
  - assert (contains (Forgetting.initial self) (Some i) = false) as ->
      by (by apply contains_false).
    reflexivity.
Qed.

Lemma result_entry_ok (self : Forgetting.t) d k a b :
  Forgetting.initial self !! k = Some a →
  Forgetting.last self !! k = Some b →
  Forgetting.result_entry self d k = Ok (<[k := a - b]> d).
Proof.
  intros Ha Hb. unfold Forgetting.result_entry, getitem. by rewrite Ha, Hb.
Qed.

Lemma result_entries (self : Forgetting.t) (l : list pykey) :
  (∀ k, k ∈ l → is_Some (difference self k)) →
  ∀ d0, ∃ d,
    foldM (Forgetting.result_entry self) d0 l = Ok d
    ∧ ∀ k, d !! k = if decide (k ∈ l) then difference self k else d0 !! k.
Proof.
  induction l as [|k0 l IH]; intros Hl d0.
  - exists d0. split; [done|]. intros k. case_decide as Hk; [|done].
    by apply not_elem_of_nil in Hk.
  - destruct (Hl k0) as [x Hx]; [left|].
    assert (∃ a b, Forgetting.initial self !! k0 = Some a
                   ∧ Forgetting.last self !! k0 = Some b ∧ x = a - b)
      as (a & b & Ha & Hb & ->).
    { unfold difference in Hx.
      destruct (Forgetting.initial self !! k0) as [a|]; [|done].
      destruct (Forgetting.last self !! k0) as [b|]; [|done].
      exists a, b. by injection Hx as <-. }
    destruct (IH (λ k Hk, Hl k (list_elem_of_further _ _ _ Hk))
                (<[k0 := a - b]> d0)) as (d & Hd & Hlook).
    exists d. split.
    + cbn [foldM]. rewrite (result_entry_ok self d0 k0 a b Ha Hb). exact Hd.
    + intros k. rewrite Hlook.
      destruct (decide (k ∈ l)) as [Hin|Hin].
      * rewrite decide_True; [done|by right].
      * destruct (decide (k = k0)) as [->|Hne].
        -- rewrite decide_True by left. rewrite lookup_insert_eq.
           unfold difference. by rewrite Ha, Hb.
        -- rewrite decide_False.
           ++ by rewrite lookup_insert_ne.
           ++ intros [?|?]%elem_of_cons; done.
Qed.

Lemma result_of_None (self : Forgetting.t) :
  ∃ d, Forgetting.result self None = Ok (VDict d)
       ∧ ∀ k, d !! k = difference self k.
Proof.
  unfold Forgetting.result.
  set (both := elements _).
  assert (∀ k, k ∈ both ↔ is_Some (difference self k)) as Hboth.
  { intros k. unfold both. rewrite elem_of_elements, elem_of_intersection.
    rewrite !elem_of_dom. unfold difference.
    destruct (Forgetting.initial self !! k), (Forgetting.last self !! k);
      split; intros H; try done; try (split; eauto);
      destruct H as [H1 H2]; by inversion H1 || by inversion H2. }
  destruct (result_entries self both (λ k Hk, proj1 (Hboth k) Hk) ∅)
    as (d & Hd & Hlook).
  exists d. rewrite Hd. split; [done|].
  intros k. rewrite Hlook. case_decide as Hk; [done|].
  rewrite lookup_empty. symmetry. apply eq_None_not_Some.
  by rewrite <- Hboth.
Qed.

Lemma result_never_raises (self : Forgetting.t) (k : pykey) :
  ∃ v, Forgetting.result self k = Ok v.
Proof.
  destruct k as [i|].
  - rewrite result_of_key. eauto.
  - destruct (result_of_None self) as (d & Hd & _). eauto.
Qed.

Lemma difference_Some self k x :
  difference self k = Some x ↔
  ∃ a b, Forgetting.initial self !! k = Some a
         ∧ Forgetting.last self !! k = Some b ∧ x = a - b.
Proof.
  unfold difference.
  destruct (Forgetting.initial self !! k) as [a|],
           (Forgetting.last self !! k) as [b|]; split;
    try (intros [= <-]; by eauto); try done;
    intros (a' & b' & Ha & Hb & ->); congruence.
Qed.

Lemma difference_None self k :
  difference self k = None ↔
  Forgetting.initial self !! k = None ∨ Forgetting.last self !! k = None.
Proof.
  unfold difference.
  destruct (Forgetting.initial self !! k) as [a|],
           (Forgetting.last self !! k) as [b|]; split; try tauto; try done;
    intros [?|?]; done.
Qed.

(** C2: [result(k)] is [None] when [k] is missing in one of the two dicts
    (so for a new tracker and after [update_initial(k, v)] alone), it is
    [a - b] exactly when [update_initial(k, a)] and [update_last(k, b)] have
    set [k] in both, and no query raises. *)
Theorem C2_result_of_key (self : Forgetting.t) (k : Z) :
  (Forgetting.initial self !! Some k = None ∨ Forgetting.last self !! Some k = None →
   Forgetting.result self (Some k) = Ok VNone)
  ∧ Forgetting.result Forgetting.new (Some k) = Ok VNone
  ∧ (∀ v, Forgetting.result (Forgetting.update_initial Forgetting.new (Some k) v) (Some k)
          = Ok VNone)
  ∧ (∀ a b,
       Forgetting.result
         (Forgetting.update_last (Forgetting.update_initial self (Some k) a) (Some k) b)
         (Some k) = Ok (VFloat (a - b))
       ∧ Forgetting.result
           (Forgetting.update_initial (Forgetting.update_last self (Some k) b) (Some k) a)
           (Some k) = Ok (VFloat (a - b))
       ∧ Forgetting.result
           (Forgetting.update (Forgetting.update self (Some k) a true) (Some k) b false)
           (Some k) = Ok (VFloat (a - b)))
  ∧ (∀ x, Forgetting.result self (Some k) = Ok (VFloat x) ↔
          ∃ a b, Forgetting.initial self !! Some k = Some a
                 ∧ Forgetting.last self !! Some k = Some b ∧ x = a - b)
  ∧ (∀ q : pykey, ∃ v, Forgetting.result self q = Ok v).
Proof.
  split_and!.
  - intros H%difference_None. by rewrite result_of_key, H.
  - by rewrite result_of_key.
  - intros v. rewrite result_of_key. unfold difference; simpl.
    by rewrite lookup_insert_eq, lookup_empty.
  - intros a b. split_and!; rewrite result_of_key; unfold difference; simpl;
      by rewrite !lookup_insert_eq.
  - intros x. rewrite result_of_key, <- difference_Some.
    destruct (difference self (Some k)); split; congruence.
  - intros q. apply result_never_raises.
Qed.

Lemma C2_result_of_key_witness :
  Forgetting.result (Forgetting.update_last Forgetting.new (Some 3%Z) 1) (Some 3%Z)
  = Ok VNone.
Proof.
  destruct (C2_result_of_key (Forgetting.update_last Forgetting.new (Some 3%Z) 1) 3)
    as [Hmissing _].
  apply Hmissing. left. reflexivity.
Defined.

(** After insertions only, the keys of a dict are the keys it had and the
    keys inserted. *)
Lemma dom_calls_inserts os self :
  Forall (λ o, is_insert o = true) os →
  dom (Forgetting.initial (Forgetting.calls self os))
    = dom (Forgetting.initial self) ∪ ⋃ (inserted true <$> os)
  ∧ dom (Forgetting.last (Forgetting.calls self os))
    = dom (Forgetting.last self) ∪ ⋃ (inserted false <$> os).
Proof.
  revert self. induction os as [|o os IH]; intros self Hos.
  - simpl. split; set_solver.
  - inversion_clear Hos as [|? ? Ho Hos'].
    destruct (IH (Forgetting.call self o) Hos') as [IHi IHl].
    change (Forgetting.calls self (o :: os))
      with (Forgetting.calls (Forgetting.call self o) os).
    rewrite IHi, IHl. clear IHi IHl IH.
    destruct o as [k v|k v|k v [|]| |]; try discriminate Ho; simpl;
      rewrite ?dom_insert_L; split; set_solver.
Qed.

Lemma inserted_Permutation init os os' :
  os ≡ₚ os' → ⋃ (inserted init <$> os) = ⋃ (inserted init <$> os').
Proof.
  intros Hp. apply set_eq. intros k. rewrite !elem_of_union_list.
  split; intros (X & HX & Hk); exists X; split; try done;
    [by rewrite <- Hp | by rewrite Hp].
Qed.

(** C5: [result()] without a key returns a dict whose keys are the keys of
    both [initial] and [last], whatever the order of the insertions, each
    with the value [initial[k] - last[k]]; a key of one dict only is left
    out, and the call does not raise. *)
Theorem C5_result_without_key (self : Forgetting.t) :
  ∃ d, Forgetting.result self None = Ok (VDict d)
       ∧ dom d = dom (Forgetting.initial self) ∩ dom (Forgetting.last self)
       ∧ (∀ k a b,
            Forgetting.initial self !! k = Some a →
            Forgetting.last self !! k = Some b →
            d !! k = Some (a - b))
       ∧ (∀ k,
            Forgetting.initial self !! k = None ∨ Forgetting.last self !! k = None →
            d !! k = None)
       ∧ (∀ os os',
            Forall (λ o, is_insert o = true) os →
            os ≡ₚ os' →
            ∃ d1 d2,
              Forgetting.result (Forgetting.calls self os) None = Ok (VDict d1)
              ∧ Forgetting.result (Forgetting.calls self os') None = Ok (VDict d2)
              ∧ dom d1 = dom d2).
Proof.
  assert (∀ f, ∃ d, Forgetting.result f None = Ok (VDict d)
                    ∧ (∀ k, d !! k = difference f k)
                    ∧ dom d = dom (Forgetting.initial f) ∩ dom (Forgetting.last f))
    as Hall.
  { intros f. destruct (result_of_None f) as (d & Hd & Hlook).
    exists d. split_and!; try done.
    apply set_eq. intros k.
    rewrite elem_of_intersection, !elem_of_dom, Hlook. unfold difference.
    destruct (Forgetting.initial f !! k), (Forgetting.last f !! k);
      split; intros H; try done; try (split; eauto);
      destruct H as [H1 H2]; by inversion H1 || by inversion H2. }
  destruct (Hall self) as (d & Hd & Hlook & Hdom).
  exists d. split_and!; try done.
  - intros k a b Ha Hb. rewrite Hlook. apply difference_Some. eauto.
  - intros k Hk. rewrite Hlook. by apply difference_None.
  - intros os os' Hos Hp.
    assert (Forall (λ o, is_insert o = true) os') as Hos' by (by rewrite <- Hp).
    destruct (Hall (Forgetting.calls self os)) as (d1 & Hd1 & _ & Hdom1).
    destruct (Hall (Forgetting.calls self os')) as (d2 & Hd2 & _ & Hdom2).
    exists d1, d2. split_and!; try done.
    destruct (dom_calls_inserts os self Hos) as [Hi Hl].
    destruct (dom_calls_inserts os' self Hos') as [Hi' Hl'].
    rewrite Hdom1, Hdom2, Hi, Hl, Hi', Hl'.
    by rewrite !(inserted_Permutation _ os os' Hp).
Qed.

(** The last value of [k] stays unset over calls that do not write it. *)
Lemma last_unset_calls k os self :
  Forgetting.last self !! k = None →
  Forall (λ o, writes_last k o = false) os →
  Forgetting.last (Forgetting.calls self os) !! k = None.
Proof.
  revert self. induction os as [|o os IH]; intros self Hk Hos; [done|].
  inversion_clear Hos as [|? ? Ho Hos'].
  change (Forgetting.calls self (o :: os))
    with (Forgetting.calls (Forgetting.call self o) os).
  apply IH; [|done].
  destruct o as [k' v|k' v|k' v [|]| |]; simpl in *; try done.
  - apply bool_decide_eq_false in Ho. by rewrite lookup_insert_ne.
  - apply bool_decide_eq_false in Ho. by rewrite lookup_insert_ne.
Qed.

(** C6: [reset_last()] keeps every entry of [initial] and empties [last];
    after it [result(k)] is [None] for every key, until [update_last] is
    called for that key. *)
Theorem C6_reset_last (self : Forgetting.t) :
  Forgetting.initial (Forgetting.reset_last self) = Forgetting.initial self
  ∧ Forgetting.last (Forgetting.reset_last self) = ∅
  ∧ (∀ (k : Z) os,
       Forall (λ o, writes_last (Some k) o = false) os →
       Forgetting.result (Forgetting.calls (Forgetting.reset_last self) os) (Some k)
       = Ok VNone)
  ∧ (∀ (k : Z) a b,
       Forgetting.initial self !! Some k = Some a →
       Forgetting.result
         (Forgetting.update_last (Forgetting.reset_last self) (Some k) b) (Some k)
       = Ok (VFloat (a - b))).
Proof.
  split_and!; try done.
  - intros k os Hos. rewrite result_of_key.
    assert (difference (Forgetting.calls (Forgetting.reset_last self) os) (Some k)
            = None) as ->; [|done].
    apply difference_None. right. by apply last_unset_calls.
  - intros k a b Ha. rewrite result_of_key.
    assert (difference
              (Forgetting.update_last (Forgetting.reset_last self) (Some k) b) (Some k)
            = Some (a - b)) as ->; [|done].
    apply difference_Some. exists a, b. simpl. by rewrite lookup_insert_eq.
Qed.

Lemma C6_reset_last_witness :
  Forgetting.result
    (Forgetting.calls
       (Forgetting.reset_last
          (Forgetting.update_last
             (Forgetting.update_initial Forgetting.new (Some 0%Z) 1) (Some 0%Z) 0))
       [Forgetting.UpdateInitial (Some 0%Z) 0; Forgetting.UpdateLast (Some 1%Z) 1])
    (Some 0%Z)
  = Ok VNone.
Proof.
  destruct (C6_reset_last
              (Forgetting.update_last
                 (Forgetting.update_initial Forgetting.new (Some 0%Z) 1) (Some 0%Z) 0))
    as (_ & _ & Hunset & _).
  apply Hunset. repeat constructor.
Defined.

(** C9: after [reset()] both dicts are empty, and every sequence of calls
    and queries gives the results it gives on a new tracker. *)
Theorem C9_reset_as_new (self : Forgetting.t) :
  Forgetting.initial (Forgetting.reset self) = ∅
  ∧ Forgetting.last (Forgetting.reset self) = ∅
  ∧ (∀ os, Forgetting.calls (Forgetting.reset self) os
           = Forgetting.calls Forgetting.new os)
  ∧ (∀ acts, observe (Forgetting.reset self) acts = observe Forgetting.new acts).
Proof.
  assert (Forgetting.reset self = Forgetting.new) as -> by reflexivity.
  by split_and!.
Qed.

(** ** The experience aggregator *)

Section ExperienceProperties.
Context {Y L A : Type} `{!Accuracy Y L A}.
Import ExperienceForgetting.

Implicit Types (self : ExperienceForgetting.t A) (strategy env : Strategy Y L).

Lemma after_eval_exp_key self strategy (i : Z) :
  eval_exp_id self = Some i →
  after_eval_exp self strategy =
  Ok (with_forgetting self (recorded self),
      match difference (recorded self) (Some i) with
      | Some x => Some [exp_record strategy (VFloat x)]
      | None => None
      end).
Proof.
  intros Hev. unfold after_eval_exp, recorded.
  destruct (decide (train_exp_id self = eval_exp_id self)) as [Heq|Hne].
  - rewrite (bool_decide_eq_true_2 _ Heq).
    unfold result, _package_result, result, update; simpl.
    rewrite Hev, result_of_key.
    by destruct (difference _ (Some i)).
  - rewrite (bool_decide_eq_false_2 _ Hne).
    unfold result, _package_result, result, update; simpl.
    rewrite Hev, result_of_key.
    by destruct (difference _ (Some i)).
Qed.

Lemma after_eval_exp_ok self strategy :
  ∃ r, after_eval_exp self strategy = Ok (with_forgetting self (recorded self), r).
Proof.
  destruct (eval_exp_id self) as [i|] eqn:Hev.
  - rewrite (after_eval_exp_key self strategy i Hev). eauto.
  - unfold after_eval_exp, recorded.
    destruct (decide (train_exp_id self = eval_exp_id self)) as [Heq|Hne].
    + rewrite (bool_decide_eq_true_2 _ Heq).
      unfold result, _package_result, result, update; simpl. rewrite Hev.
      destruct (result_of_None
                  (Forgetting.update_initial (forgetting self) None
                     (acc_result (_current_accuracy self)))) as (d & -> & _).
      simpl. eauto.
    + rewrite (bool_decide_eq_false_2 _ Hne).
      unfold result, _package_result, result, update; simpl. rewrite Hev.
      destruct (result_of_None
                  (Forgetting.update_last (forgetting self) None
                     (acc_result (_current_accuracy self)))) as (d & -> & _).
      simpl. eauto.
Qed.

Lemma on_ok h self strategy : ∃ self' r, on h self strategy = Ok (self', r).
Proof.
  destruct h; simpl; eauto.
  destruct (after_eval_exp_ok self strategy) as [r ->]. eauto.
Qed.

Lemma run_cons h strategy events self self' r :
  on h self strategy = Ok (self', r) →
  run self ((h, strategy) :: events) =
  '(self'', rs) ← run self' events; Ok (self'', emitted r ++ rs).
Proof. intros Hon. simpl. by rewrite Hon. Qed.

Lemma run_ok events : ∀ self, ∃ self' rs, run self events = Ok (self', rs).
Proof.
  induction events as [|[h strategy] events IH]; intros self; [simpl; eauto|].
  destruct (on_ok h self strategy) as (self1 & r & Hon).
  rewrite (run_cons _ _ _ _ _ _ Hon).
  destruct (IH self1) as (self2 & rs & ->). simpl. eauto.
Qed.

Lemma run_app events1 events2 self self1 rs1 :
  run self events1 = Ok (self1, rs1) →
  run self (events1 ++ events2) =
  '(self2, rs2) ← run self1 events2; Ok (self2, rs1 ++ rs2).
Proof.
  revert self rs1.
  induction events1 as [|[h strategy] events1 IH]; intros self rs1 Hrun.
  - simpl in Hrun. injection Hrun as <- <-. simpl.
    by destruct (run self events2) as [[? ?]|].
  - destruct (on_ok h self strategy) as (s & r & Hon).
    rewrite (run_cons _ _ _ _ _ _ Hon) in Hrun.
    change (((h, strategy) :: events1) ++ events2)
      with ((h, strategy) :: (events1 ++ events2)).
    rewrite (run_cons _ _ _ _ _ _ Hon).
    destruct (run s events1) as [[s1 rs]|] eqn:Hrun1; [|done].
    simpl in Hrun. injection Hrun as <- <-.
    rewrite (IH _ _ Hrun1).
    destruct (run s1 events2) as [[? ?]|]; simpl; [|done].
    by rewrite app_assoc.
Qed.

Lemma iterated_fields self env k mbs :
  forgetting (iterated self env k mbs) = forgetting self
  ∧ train_exp_id (iterated self env k mbs) = train_exp_id self
  ∧ _current_accuracy (iterated self env k mbs)
    = foldl (λ a mb, acc_update a mb.1 mb.2) (_current_accuracy self) mbs
  ∧ (mbs ≠ [] → eval_exp_id (iterated self env k mbs) = Some k).
Proof.
  unfold iterated. revert self.
  induction mbs as [|mb mbs IH] using rev_ind; intros self; [done|].
  rewrite !foldl_app. simpl.
  destruct (IH self) as (Hf & Ht & Ha & _). by rewrite Hf, Ht, Ha.
Qed.

Lemma run_iterations self env k mbs :
  run self (map (λ mb, (AfterEvalIteration, at_iteration env k mb)) mbs)
  = Ok (iterated self env k mbs, []).
Proof.
  unfold iterated. revert self. induction mbs as [|mb mbs IH]; intros self; [done|].
  simpl. by rewrite IH.
Qed.

(** The evaluation of one experience, as one step. *)
Lemma run_eval_exp self env (k : Z) mbs :
  mbs ≠ [] →
  let f := evaluated (forgetting self) (train_exp_id self) k (accuracy_of mbs) in
  ∃ self',
    run self (eval_exp_events env (k, mbs))
    = Ok (self',
          match difference f (Some k) with
          | Some x => [exp_record (at_experience env k) (VFloat x)]
          | None => []
          end)
    ∧ forgetting self' = f
    ∧ train_exp_id self' = train_exp_id self
    ∧ eval_exp_id self' = Some k.
Proof.
  intros Hmbs f. unfold eval_exp_events. cbn [fst snd].
  set (s1 := before_eval_exp self (at_experience env k)).
  set (s2 := iterated s1 env k mbs).
  destruct (iterated_fields s1 env k mbs) as (Hf & Ht & Ha & He).
  specialize (He Hmbs). fold s2 in Hf, Ht, Ha, He.
  assert (recorded s2 = f) as Hrec.
  { unfold recorded, f, evaluated, accuracy_of.
    rewrite Hf, Ht, Ha, He. simpl. by rewrite acc_reset_new. }
  exists (with_forgetting s2 (recorded s2)).
  split_and!; try (by rewrite <- Hrec); try done.
  rewrite (run_cons BeforeEvalExp _ _ self s1 None eq_refl).
  rewrite (run_app _ _ _ _ _ (run_iterations s1 env k mbs)). fold s2.
  simpl. rewrite (after_eval_exp_key s2 _ k He), Hrec. simpl.
  destruct (difference f (Some k)); simpl; by rewrite ?app_nil_r.
Qed.

(** What a hook other than before-training does to the tracker. *)
Lemma on_tracker h self strategy self' r :
  on h self strategy = Ok (self', r) →
  h ≠ BeforeTrainingExp →
  train_exp_id self' = train_exp_id self
  ∧ (forgetting self' = forgetting self
     ∨ forgetting self' = Forgetting.reset_last (forgetting self)
     ∨ forgetting self' = recorded self).
Proof.
  intros Hon Hh. destruct h; simpl in Hon; try done;
    try (injection Hon as <- <-; simpl; by eauto).
  destruct (after_eval_exp_ok self strategy) as [r' Hr].
  rewrite Hr in Hon. injection Hon as <- <-. simpl. eauto.
Qed.

(** In the evaluation that follows the training on [k], no last value of
    [k] is written. *)
Lemma same_pass_invariant (k : Z) events : ∀ self self' rs,
  run self events = Ok (self', rs) →
  without BeforeTrainingExp events →
  train_exp_id self = Some k →
  Forgetting.last (forgetting self) !! Some k = None →
  train_exp_id self' = Some k
  ∧ Forgetting.last (forgetting self') !! Some k = None.
Proof.
  induction events as [|[h strategy] events IH]; intros self self' rs Hrun Hev Ht Hl.
  - simpl in Hrun. by injection Hrun as <- <-.
  - inversion_clear Hev as [|? ? Hh Hev']. simpl in Hh.
    destruct (on_ok h self strategy) as (s & r & Hon).
    rewrite (run_cons _ _ _ _ _ _ Hon) in Hrun.
    destruct (run s events) as [[s1 rs1]|] eqn:Hrun1; [|done].
    simpl in Hrun. injection Hrun as <- <-.
    destruct (on_tracker _ _ _ _ _ Hon Hh) as [Ht' Hf].
    apply (IH _ _ _ Hrun1 Hev'); [congruence|].
    destruct Hf as [-> | [-> | ->]]; try done.
    unfold recorded. rewrite Ht.
    case_bool_decide as Heq; simpl; [done|].
    rewrite lookup_insert_ne; [done|congruence].
Qed.

(** In the evaluation that follows the training on [k'], the initial value
    of another key [k] is kept. *)
Lemma later_pass_invariant (k k' : Z) a events : ∀ self self' rs,
  run self events = Ok (self', rs) →
  without BeforeTrainingExp events →
  k ≠ k' →
  train_exp_id self = Some k' →
  Forgetting.initial (forgetting self) !! Some k = Some a →
  train_exp_id self' = Some k'
  ∧ Forgetting.initial (forgetting self') !! Some k = Some a.
Proof.
  induction events as [|[h strategy] events IH];
    intros self self' rs Hrun Hev Hne Ht Hi.
  - simpl in Hrun. by injection Hrun as <- <-.
  - inversion_clear Hev as [|? ? Hh Hev']. simpl in Hh.
    destruct (on_ok h self strategy) as (s & r & Hon).
    rewrite (run_cons _ _ _ _ _ _ Hon) in Hrun.
    destruct (run s events) as [[s1 rs1]|] eqn:Hrun1; [|done].
    simpl in Hrun. injection Hrun as <- <-.
    destruct (on_tracker _ _ _ _ _ Hon Hh) as [Ht' Hf].
    apply (IH _ _ _ Hrun1 Hev' Hne); [congruence|].
    destruct Hf as [-> | [-> | ->]]; try done.
    unfold recorded. rewrite Ht.
    case_bool_decide as Heq; simpl; [|done].
    rewrite lookup_insert_ne; [done|congruence].
Qed.

(** The evaluation of experiences other than [k] keeps the initial value
    of [k]. *)
Lemma others_keep_initial (k : Z) env exps : ∀ self,
  Forall (λ e : Z * list (Y * L), e.1 ≠ k ∧ e.2 ≠ []) exps →
  ∃ self' rs,
    run self (concat (map (eval_exp_events env) exps)) = Ok (self', rs)
    ∧ train_exp_id self' = train_exp_id self
    ∧ Forgetting.initial (forgetting self') !! Some k
      = Forgetting.initial (forgetting self) !! Some k.
Proof.
  induction exps as [|[j mbs] exps IH]; intros self Hexps; [simpl; eauto|].
  inversion_clear Hexps as [|? ? [Hj Hmbs] Hexps']. simpl in Hj, Hmbs.
  destruct (run_eval_exp self env j mbs Hmbs) as (s1 & Hrun1 & Hf1 & Ht1 & _).
  destruct (IH s1 Hexps') as (s2 & rs2 & Hrun2 & Ht2 & Hi2).
  cbn [map concat]. rewrite (run_app _ _ _ _ _ Hrun1), Hrun2. simpl.
  eexists _, _. split_and!; [done|congruence|].
  rewrite Hi2, Hf1. unfold evaluated.
  case_bool_decide; simpl; [|done].
  rewrite lookup_insert_ne; [done|congruence].
Qed.

(** C1: in the evaluation that follows the training on [k], the evaluation
    of [k] records the accumulated accuracy as the initial value of [k] and
    emits no record, [result(k)] being [None]; after the training on another
    key, the evaluation of [k] records a last value and emits the forgetting,
    the initial value minus the last one. *)
Theorem C1_initial_then_forgetting self env env' (k k' : Z) mbs mbs' body rest body' :
  k ≠ k' →
  mbs ≠ [] →
  mbs' ≠ [] →
  without BeforeTrainingExp body →
  Forall (λ e : Z * list (Y * L), e.1 ≠ k ∧ e.2 ≠ []) rest →
  without BeforeTrainingExp body' →
  ∃ s0 rs0 s1 s2 rs2 s3,
    run self ((BeforeTrainingExp, at_experience env k) :: (BeforeEval, env) :: body)
    = Ok (s0, rs0)
    ∧ run s0 (eval_exp_events env (k, mbs)) = Ok (s1, [])
    ∧ Forgetting.initial (forgetting s1) !! Some k = Some (accuracy_of mbs)
    ∧ result s1 (Some k) = Ok VNone
    ∧ run s1 (concat (map (eval_exp_events env) rest)
              ++ (AfterEval, env) :: (BeforeTrainingExp, at_experience env' k')
                   :: (BeforeEval, env') :: body')
      = Ok (s2, rs2)
    ∧ run s2 (eval_exp_events env' (k, mbs'))
      = Ok (s3, [exp_record (at_experience env' k)
                   (VFloat (accuracy_of mbs - accuracy_of mbs'))])
    ∧ Forgetting.last (forgetting s3) !! Some k = Some (accuracy_of mbs').
Proof.
  intros Hne Hmbs Hmbs' Hbody Hrest Hbody'.
  (* the first evaluation, after the training on [k] *)
  set (sa := before_eval (before_training_exp self (at_experience env k)) env).
  destruct (run_ok body sa) as (s0 & rs0 & Hrun0).
  destruct (same_pass_invariant k body sa s0 rs0 Hrun0 Hbody eq_refl)
    as [Ht0 Hl0]; [done|].
  destruct (run_eval_exp s0 env k mbs Hmbs) as (s1 & Hrun1 & Hf1 & Ht1 & He1).
  rewrite Ht0 in Hf1, Hrun1. unfold evaluated in Hf1, Hrun1.
  rewrite bool_decide_eq_true_2 in Hf1, Hrun1 by done. simpl in Hf1, Hrun1.
  assert (difference (Forgetting.update_initial (forgetting s0) (Some k) (accuracy_of mbs))
            (Some k) = None) as Hd1 by (apply difference_None; by right).
  rewrite Hd1 in Hrun1.
  assert (Forgetting.initial (forgetting s1) !! Some k = Some (accuracy_of mbs)) as Hi1.
  { rewrite Hf1. simpl. apply lookup_insert_eq. }
  (* the rest of the stream, the training on [k'], the second evaluation *)
  destruct (others_keep_initial k env rest s1 Hrest) as (s1r & rsr & Hrunr & Htr & Hir).
  set (sb := before_eval (before_training_exp s1r (at_experience env' k')) env').
  destruct (run_ok body' sb) as (s2 & rs2 & Hrun2).
  destruct (later_pass_invariant k k' (accuracy_of mbs) body' sb s2 rs2 Hrun2 Hbody' Hne eq_refl)
    as [Ht2 Hi2]; [simpl; congruence|].
  destruct (run_eval_exp s2 env' k mbs' Hmbs') as (s3 & Hrun3 & Hf3 & Ht3 & He3).
  rewrite Ht2 in Hf3, Hrun3. unfold evaluated in Hf3, Hrun3.
  rewrite bool_decide_eq_false_2 in Hf3, Hrun3 by congruence. simpl in Hf3, Hrun3.
  assert (difference (Forgetting.update_last (forgetting s2) (Some k) (accuracy_of mbs'))
            (Some k) = Some (accuracy_of mbs - accuracy_of mbs')) as Hd3.
  { apply difference_Some. eexists _, _. split_and!; [exact Hi2| |done].
    simpl. apply lookup_insert_eq. }
  rewrite Hd3 in Hrun3.
  exists s0, rs0, s1, s2, (rsr ++ rs2), s3. split_and!; try done.
  - simpl. fold sa. by rewrite Hrun0.
  - unfold result. rewrite Hf1, result_of_key. by rewrite Hd1.
  - rewrite (run_app _ _ _ _ _ Hrunr). simpl. fold sb. by rewrite Hrun2.
  - rewrite Hf3. simpl. apply lookup_insert_eq.
Qed.

(** C8: when the training key is the evaluation key, [after_eval_exp]
    writes the accumulated accuracy as the initial value of the key whatever
    the tracker holds, so that a later training on the same experience
    replaces the stored initial value. *)
Theorem C8_initial_overwritten self strategy env (k : Z) mbs body :
  (train_exp_id self = eval_exp_id self →
   ∃ r, after_eval_exp self strategy
        = Ok (with_forgetting self
                (Forgetting.update_initial (forgetting self) (eval_exp_id self)
                   (acc_result (_current_accuracy self))), r))
  ∧ (mbs ≠ [] →
     without BeforeTrainingExp body →
     ∃ s0 rs0 s1 rs1,
       run self ((BeforeTrainingExp, at_experience env k) :: body) = Ok (s0, rs0)
       ∧ run s0 (eval_exp_events env (k, mbs)) = Ok (s1, rs1)
       ∧ Forgetting.initial (forgetting s1)
         = <[Some k := accuracy_of mbs]> (Forgetting.initial (forgetting s0))).
Proof.
  split.
  - intros Heq. destruct (after_eval_exp_ok self strategy) as [r Hr].
    exists r. rewrite Hr. unfold recorded.
    by rewrite (bool_decide_eq_true_2 _ Heq).
  - intros Hmbs Hbody.
    set (sa := before_training_exp self (at_experience env k)).
    destruct (run_ok body sa) as (s0 & rs0 & Hrun0).
    assert (train_exp_id s0 = Some k) as Ht0.
    { clear Hmbs. revert sa s0 rs0 Hrun0 Hbody.
      generalize (eq_refl : train_exp_id
                              (before_training_exp self (at_experience env k)) = Some k).
      generalize (before_training_exp self (at_experience env k)).
      induction body as [|[h st] body IH]; intros s Hs sa s0 rs0 Hrun Hbody.
      - simpl in Hrun. by injection Hrun as <- <-.
      - inversion_clear Hbody as [|? ? Hh Hbody']. simpl in Hh.
        destruct (on_ok h s st) as (s' & r & Hon).
        unfold sa in Hrun. rewrite (run_cons _ _ _ _ _ _ Hon) in Hrun.
        destruct (run s' body) as [[s1 rs1]|] eqn:Hrun1; [|done].
        simpl in Hrun. injection Hrun as <- <-.
        destruct (on_tracker _ _ _ _ _ Hon Hh) as [Ht' _].
        apply (IH s' (eq_trans Ht' Hs) s1 rs1 Hrun1 Hbody'). }
    destruct (run_eval_exp s0 env k mbs Hmbs) as (s1 & Hrun1 & Hf1 & _).
    eexists s0, rs0, s1, _. split_and!; [|exact Hrun1|].
    + simpl. fold sa. by rewrite Hrun0.
    + rewrite Hf1, Ht0. unfold evaluated.
      by rewrite bool_decide_eq_true_2.
Qed.

(** A key that the calls do not record as trained has no initial value. *)
Lemma untrained_invariant (k : Z) events : ∀ events' self self' rs,
  run self events = Ok (self', rs) →
  recorded_as_trained k (train_exp_id self) (eval_exp_id self) (events ++ events')
  = false →
  Forgetting.initial (forgetting self) !! Some k = None →
  Forgetting.initial (forgetting self') !! Some k = None
  ∧ recorded_as_trained k (train_exp_id self') (eval_exp_id self') events' = false.
Proof.
  induction events as [|[h strategy] events IH];
    intros events' self self' rs Hrun Hrec Hi.
  - simpl in Hrun. by injection Hrun as <- <-.
  - destruct (on_ok h self strategy) as (s & r & Hon).
    rewrite (run_cons _ _ _ _ _ _ Hon) in Hrun.
    destruct (run s events) as [[s1 rs1]|] eqn:Hrun1; [|done].
    simpl in Hrun. injection Hrun as <- <-.
    destruct h; simpl in Hon, Hrec;
      try (injection Hon as <- <-; by apply (IH events' _ _ _ Hrun1)).
    destruct (after_eval_exp_ok self strategy) as [r' Hr].
    rewrite Hr in Hon. injection Hon as <- <-.
    apply orb_false_iff in Hrec as [Hnow Hrec].
    apply (IH events' _ _ _ Hrun1); [exact Hrec|]. simpl.
    unfold recorded.
    destruct (decide (train_exp_id self = eval_exp_id self)) as [Heq|Hne].
    + rewrite (bool_decide_eq_true_2 _ Heq). simpl.
      rewrite lookup_insert_ne; [done|]. intros Hk.
      rewrite Heq, Hk in Hnow.
      by rewrite !bool_decide_eq_true_2 in Hnow.
    + by rewrite (bool_decide_eq_false_2 _ Hne).
Qed.

End ExperienceProperties.

(** ** The stream aggregator *)

Section StreamProperties.
Context {Y L A : Type} `{!Accuracy Y L A}.
Import StreamForgetting.

Implicit Types (self : StreamForgetting.t A) (strategy env : Strategy Y L).

Lemma stream_after_eval_exp_key self strategy (i : Z) :
  eval_exp_id self = Some i →
  after_eval_exp self strategy =
  Ok (with_stream_forgetting (with_forgetting self (stream_recorded self))
        (fed (stream_forgetting self) (difference (stream_recorded self) (Some i))),
      None).
Proof.
  intros Hev. unfold after_eval_exp, stream_recorded.
  destruct (decide (train_exp_id self = eval_exp_id self)) as [Heq|Hne].
  - rewrite (bool_decide_eq_true_2 _ Heq).
    unfold exp_result, exp_update; simpl.
    rewrite Hev, result_of_key.
    destruct (difference _ (Some i)); simpl; [done|].
    by destruct self.
  - rewrite (bool_decide_eq_false_2 _ Hne).
    unfold exp_result, exp_update; simpl.
    rewrite Hev, result_of_key.
    destruct (difference _ (Some i)); simpl; [done|].
    by destruct self.
Qed.

Lemma stream_run_cons h strategy events self self' r :
  on h self strategy = Ok (self', r) →
  run self ((h, strategy) :: events) =
  '(self'', rs) ← run self' events; Ok (self'', emitted r ++ rs).
Proof. intros Hon. simpl. by rewrite Hon. Qed.

Lemma stream_run_cons_inv h strategy events self self2 rs :
  run self ((h, strategy) :: events) = Ok (self2, rs) →
  ∃ self1 r rs1,
    on h self strategy = Ok (self1, r)
    ∧ run self1 events = Ok (self2, rs1)
    ∧ rs = emitted r ++ rs1.
Proof.
  simpl. destruct (on h self strategy) as [[self1 r]|]; [|done]. simpl.
  destruct (run self1 events) as [[s rs1]|] eqn:Hrun; [|done]. simpl.
  intros [= <- <-]. by eexists _, _, _.
Qed.

Lemma stream_run_app events1 events2 self self1 rs1 :
  run self events1 = Ok (self1, rs1) →
  run self (events1 ++ events2) =
  '(self2, rs2) ← run self1 events2; Ok (self2, rs1 ++ rs2).
Proof.
  revert self rs1.
  induction events1 as [|[h strategy] events1 IH]; intros self rs1 Hrun.
  - simpl in Hrun. injection Hrun as <- <-. simpl.
    by destruct (run self events2) as [[? ?]|].
  - destruct (stream_run_cons_inv _ _ _ _ _ _ Hrun) as (s & r & rs & Hon & Hrun1 & ->).
    change (((h, strategy) :: events1) ++ events2)
      with ((h, strategy) :: (events1 ++ events2)).
    rewrite (stream_run_cons _ _ _ _ _ _ Hon), (IH _ _ Hrun1).
    destruct (run self1 events2) as [[? ?]|]; simpl; [|done].
    by rewrite app_assoc.
Qed.

Lemma stream_iterated_fields self env k mbs :
  forgetting (stream_iterated self env k mbs) = forgetting self
  ∧ stream_forgetting (stream_iterated self env k mbs) = stream_forgetting self
  ∧ train_exp_id (stream_iterated self env k mbs) = train_exp_id self
  ∧ _current_accuracy (stream_iterated self env k mbs)
    = foldl (λ a mb, acc_update a mb.1 mb.2) (_current_accuracy self) mbs
  ∧ (mbs ≠ [] → eval_exp_id (stream_iterated self env k mbs) = Some k).
Proof.
  unfold stream_iterated. revert self.
  induction mbs as [|mb mbs IH] using rev_ind; intros self; [done|].
  rewrite !foldl_app. simpl.
  destruct (IH self) as (Hf & Hm & Ht & Ha & _). by rewrite Hf, Hm, Ht, Ha.
Qed.

Lemma stream_run_iterations self env k mbs :
  run self (map (λ mb, (AfterEvalIteration, at_iteration env k mb)) mbs)
  = Ok (stream_iterated self env k mbs, []).
Proof.
  unfold stream_iterated. revert self.
  induction mbs as [|mb mbs IH]; intros self; [done|].
  simpl. by rewrite IH.
Qed.

(** The evaluation of one experience, as one step: the tracker is updated
    as in the experience aggregator, the forgetting of the experience is fed
    to the mean when it is defined, and no record is emitted. *)
Lemma stream_run_eval_exp self env (k : Z) mbs :
  mbs ≠ [] →
  let f := evaluated (forgetting self) (train_exp_id self) k (accuracy_of mbs) in
  ∃ self',
    run self (eval_exp_events env (k, mbs)) = Ok (self', [])
    ∧ forgetting self' = f
    ∧ train_exp_id self' = train_exp_id self
    ∧ eval_exp_id self' = Some k
    ∧ stream_forgetting self' = fed (stream_forgetting self) (difference f (Some k)).
Proof.
  intros Hmbs f. unfold eval_exp_events. cbn [fst snd].
  set (s1 := before_eval_exp self (at_experience env k)).
  set (s2 := stream_iterated s1 env k mbs).
  destruct (stream_iterated_fields s1 env k mbs) as (Hf & Hm & Ht & Ha & He).
  specialize (He Hmbs). fold s2 in Hf, Hm, Ht, Ha, He.
  assert (stream_recorded s2 = f) as Hrec.
  { unfold stream_recorded, f, evaluated, accuracy_of.
    rewrite Hf, Ht, Ha, He. simpl. by rewrite acc_reset_new. }
  eexists. split_and!.
  - rewrite (stream_run_cons BeforeEvalExp _ _ self s1 None eq_refl).
    rewrite (stream_run_app _ _ _ _ _ (stream_run_iterations s1 env k mbs)).
    fold s2. simpl. rewrite (stream_after_eval_exp_key s2 _ k He). simpl.
    reflexivity.
  - simpl. by rewrite Hrec.
  - simpl. by rewrite Ht.
  - simpl. by rewrite He.
  - simpl. by rewrite Hrec, Hm.
Qed.

Lemma stream_after_eval_exp_None self strategy :
  eval_exp_id self = None → after_eval_exp self strategy = Raise TypeError.
Proof.
  intros Hev. unfold after_eval_exp.
  destruct (decide (train_exp_id self = eval_exp_id self)) as [Heq|Hne];
    unfold exp_result, exp_update; simpl; rewrite Hev.
  - destruct (result_of_None
                (Forgetting.update_initial (forgetting self) None
                   (acc_result (_current_accuracy self)))) as (d & -> & _).
    done.
  - destruct (result_of_None
                (Forgetting.update_last (forgetting self) None
                   (acc_result (_current_accuracy self)))) as (d & -> & _).
    done.
Qed.

(** A hook does to the tracker, the accumulator and the ids of the stream
    aggregator what it does to those of the experience aggregator. *)
Lemma stream_on_as_experience h self strategy self' r :
  on h self strategy = Ok (self', r) →
  ∃ r', ExperienceForgetting.on h (as_experience self) strategy
        = Ok (as_experience self', r').
Proof.
  intros Hon. destruct h; simpl in Hon;
    try (injection Hon as <- <-; simpl; by eauto).
  destruct (eval_exp_id self) as [i|] eqn:Hev.
  - rewrite (stream_after_eval_exp_key self strategy i Hev) in Hon.
    injection Hon as <- <-.
    destruct (after_eval_exp_ok (as_experience self) strategy) as [r' Hr].
    exists r'. simpl. by rewrite Hr.
  - by rewrite (stream_after_eval_exp_None self strategy Hev) in Hon.
Qed.

Lemma stream_run_as_experience events : ∀ self self' rs,
  run self events = Ok (self', rs) →
  ∃ rs', ExperienceForgetting.run (as_experience self) events
         = Ok (as_experience self', rs').
Proof.
  induction events as [|[h strategy] events IH]; intros self self' rs Hrun.
  - simpl in Hrun. injection Hrun as <- <-. simpl. eauto.
  - destruct (stream_run_cons_inv _ _ _ _ _ _ Hrun) as (s & r & rs1 & Hon & Hrun1 & ->).
    destruct (stream_on_as_experience _ _ _ _ _ Hon) as [r' Hon'].
    destruct (IH _ _ _ Hrun1) as [rs' Hrun'].
    rewrite (run_cons _ _ _ _ _ _ Hon'), Hrun'. simpl. eauto.
Qed.

(** The hooks of the stream aggregator return when the evaluated experience
    is known at each after-eval-experience call. *)
Lemma stream_run_ok events : ∀ self,
  iterations_first (bool_decide (is_Some (eval_exp_id self))) events = true →
  ∃ self' rs, run self events = Ok (self', rs).
Proof.
  induction events as [|[h strategy] events IH]; intros self Hev; [simpl; eauto|].
  assert (∀ self1 r,
            on h self strategy = Ok (self1, r) →
            iterations_first (bool_decide (is_Some (eval_exp_id self1))) events = true →
            ∃ self' rs, run self ((h, strategy) :: events) = Ok (self', rs)) as Hstep.
  { intros self1 r Hon Hev1. rewrite (stream_run_cons _ _ _ _ _ _ Hon).
    destruct (IH self1 Hev1) as (self2 & rs & ->). simpl. eauto. }
  destruct h; simpl in Hev; try (by eapply Hstep; [reflexivity|]).
  apply andb_true_iff in Hev as [Hseen Hev].
  apply bool_decide_eq_true in Hseen as [i Hi].
  eapply Hstep; [exact (stream_after_eval_exp_key self strategy i Hi)|].
  simpl. by rewrite Hi, bool_decide_eq_true_2 in *.
Qed.

End StreamProperties.

(** ** The running mean *)

Lemma mean_unit_summed (l : list Qc) :
  Mean.summed {| Mean.samples := map (λ x, (x, 1)) l |} = foldr Qcplus 0 l.
Proof.
  unfold Mean.summed. simpl. induction l as [|x l IH]; [done|].
  simpl. by rewrite IH, Qcmult_1_r.
Qed.

Lemma mean_unit_weight (l : list Qc) :
  Mean.weight {| Mean.samples := map (λ x, (x, 1)) l |} = Qc_of_Z (Z.of_nat (length l)).
Proof.
  unfold Mean.weight. simpl.
  induction l as [|x l IH]; [symmetry; apply Z2Qc_inj_0|].
  cbn [map foldr length snd]. rewrite IH, Nat2Z.inj_succ, <- Z.add_1_l.
  by rewrite Z2Qc_inj_add, Z2Qc_inj_1.
Qed.

(** The mean accumulator fed with the values of [l], each with weight 1,
    returns the unweighted mean of [l]. *)
Lemma mean_unit_result (l : list Qc) :
  Mean.result {| Mean.samples := map (λ x, (x, 1)) l |} = mean_of l.
Proof.
  unfold Mean.result.
  destruct l as [|x l]; [done|].
  rewrite mean_unit_summed, mean_unit_weight. reflexivity.
Qed.

(** ** The two aggregators on one evaluation stream *)

Section Aggregators.
Context {Y L A : Type} `{!Accuracy Y L A}.

Implicit Types (se : ExperienceForgetting.t A) (ss : StreamForgetting.t A).
Implicit Types (strategy env : Strategy Y L).

(** Over the experiences of a stream, the stream aggregator emits nothing
    and feeds its mean, with weight 1, the values of the records the
    experience aggregator emits. *)
Lemma stream_feeds_forgettings env exps : ∀ se ss,
  ExperienceForgetting.forgetting se = StreamForgetting.forgetting ss →
  ExperienceForgetting.train_exp_id se = StreamForgetting.train_exp_id ss →
  Forall (λ e : Z * list (Y * L), e.2 ≠ []) exps →
  ∃ se' rs ss',
    ExperienceForgetting.run se (concat (map (eval_exp_events env) exps)) = Ok (se', rs)
    ∧ StreamForgetting.run ss (concat (map (eval_exp_events env) exps)) = Ok (ss', [])
    ∧ Forall (λ r, ∃ x, value r = VFloat x) rs
    ∧ Mean.samples (StreamForgetting.stream_forgetting ss')
      = Mean.samples (StreamForgetting.stream_forgetting ss)
        ++ map (λ x, (x, 1)) (floats rs).
Proof.
  induction exps as [|[k mbs] exps IH]; intros se ss Hf Ht Hexps.
  - exists se, [], ss. simpl. split_and!; try done. by rewrite app_nil_r.
  - inversion_clear Hexps as [|? ? Hmbs Hexps']. simpl in Hmbs.
    destruct (run_eval_exp se env k mbs Hmbs) as (se1 & He1 & Hfe1 & Hte1 & _).
    destruct (stream_run_eval_exp ss env k mbs Hmbs)
      as (ss1 & Hs1 & Hfs1 & Hts1 & _ & Hm1).
    rewrite <- Hf, <- Ht in Hfs1, Hm1.
    destruct (IH se1 ss1) as (se2 & rs2 & ss2 & He2 & Hs2 & Hrs2 & Hm2);
      [congruence|congruence|done|].
    cbn [map concat].
    rewrite (run_app _ _ _ _ _ He1), He2, (stream_run_app _ _ _ _ _ Hs1), Hs2.
    simpl. eexists _, _, _. split_and!; try done.
    + destruct (difference _ (Some k)); simpl; [|done].
      constructor; [simpl; eauto|done].
    + rewrite Hm2, Hm1.
      destruct (difference _ (Some k)); simpl; [|done].
      by rewrite <- app_assoc.
Qed.

(** C3: the value the stream aggregator emits at the end of an evaluation
    stream is the unweighted mean of the forgetting values defined for the
    experiences of that stream, the values of the records of the experience
    aggregator; what the mean held before the stream does not count. *)
Theorem C3_stream_mean se ss env exps :
  ExperienceForgetting.forgetting se = StreamForgetting.forgetting ss →
  ExperienceForgetting.train_exp_id se = StreamForgetting.train_exp_id ss →
  Forall (λ e : Z * list (Y * L), e.2 ≠ []) exps →
  ∃ se' rs ss',
    ExperienceForgetting.run se (eval_events env exps) = Ok (se', rs)
    ∧ Forall (λ r, ∃ x, value r = VFloat x) rs
    ∧ StreamForgetting.run ss (eval_events env exps)
      = Ok (ss', [stream_record env (mean_of (floats rs))]).
Proof.
  intros Hf Ht Hexps. unfold eval_events.
  set (se0 := ExperienceForgetting.before_eval se env).
  set (ss0 := StreamForgetting.before_eval ss env).
  destruct (stream_feeds_forgettings env exps se0 ss0)
    as (se1 & rs & ss1 & He & Hs & Hrs & Hm); [simpl; congruence|done|done|].
  exists se1, rs, ss1. split_and!; [|done|].
  - rewrite (run_cons BeforeEval env _ se se0 None eq_refl).
    rewrite (run_app _ _ _ _ _ He). simpl. by rewrite app_nil_r.
  - rewrite (stream_run_cons BeforeEval env _ ss ss0 None eq_refl).
    rewrite (stream_run_app _ _ _ _ _ Hs). simpl.
    unfold StreamForgetting._package_result, stream_record, StreamForgetting.result.
    do 4 f_equal. rewrite <- mean_unit_result.
    destruct (StreamForgetting.stream_forgetting ss1) as [l]. simpl in Hm.
    by rewrite Hm.
Qed.

(** A whole evaluation stream on the stream aggregator: one record, with
    the result of the mean at the end of the stream. *)
Lemma stream_run_eval_events ss env exps :
  Forall (λ e : Z * list (Y * L), e.2 ≠ []) exps →
  ∃ ss' ,
    StreamForgetting.run ss (eval_events env exps)
    = Ok (ss', [stream_record env (StreamForgetting.result ss' None)])
    ∧ StreamForgetting.result ss' None
      = Mean.result (StreamForgetting.stream_forgetting ss').
Proof.
  intros Hexps. unfold eval_events.
  set (ss0 := StreamForgetting.before_eval ss env).
  destruct (stream_feeds_forgettings env exps (as_experience ss0) ss0)
    as (se1 & rs & ss1 & _ & Hs & _); [done|done|done|].
  exists ss1. split; [|done].
  rewrite (stream_run_cons BeforeEval env _ ss ss0 None eq_refl).
  rewrite (stream_run_app _ _ _ _ _ Hs). reflexivity.
Qed.

(** C4: for a key that is never recorded as trained, over any sequence of
    hook calls the forgetting stays undefined: the experience aggregator
    emits no record at the evaluation of the key, and the stream aggregator
    feeds nothing to its mean. *)
Theorem C4_never_trained (k : Z) events strategy :
  recorded_as_trained k None None (events ++ [(AfterEvalExp, strategy)]) = false →
  (∃ se rs,
     ExperienceForgetting.run ExperienceForgetting.new events = Ok (se, rs)
     ∧ ExperienceForgetting.result se (Some k) = Ok VNone
     ∧ (ExperienceForgetting.eval_exp_id se = Some k →
        ∃ se', ExperienceForgetting.after_eval_exp se strategy = Ok (se', None)
               ∧ ExperienceForgetting.result se' (Some k) = Ok VNone))
  ∧ (iterations_first false events = true →
     ∃ ss rs, StreamForgetting.run StreamForgetting.new events = Ok (ss, rs))
  ∧ (∀ ss rs,
       StreamForgetting.run StreamForgetting.new events = Ok (ss, rs) →
       StreamForgetting.exp_result ss (Some k) = Ok VNone
       ∧ (StreamForgetting.eval_exp_id ss = Some k →
          ∃ ss', StreamForgetting.after_eval_exp ss strategy = Ok (ss', None)
                 ∧ StreamForgetting.stream_forgetting ss'
                   = StreamForgetting.stream_forgetting ss
                 ∧ StreamForgetting.exp_result ss' (Some k) = Ok VNone)).
Proof.
  intros Hrec.
  assert (∀ se rs,
            ExperienceForgetting.run ExperienceForgetting.new events = Ok (se, rs) →
            Forgetting.initial (ExperienceForgetting.forgetting se) !! Some k = None
            ∧ (ExperienceForgetting.eval_exp_id se = Some k →
               Forgetting.initial (recorded se) !! Some k = None)) as Hinv.
  { intros se rs Hrun.
    destruct (untrained_invariant k events [(AfterEvalExp, strategy)]
                ExperienceForgetting.new se rs Hrun Hrec (lookup_empty _))
      as [Hi Hlast].
    split; [done|]. intros Hev. simpl in Hlast. rewrite Hev in Hlast.
    apply orb_false_iff in Hlast as [Hlast _].
    rewrite (bool_decide_eq_true_2 (Some k = Some k) eq_refl), andb_true_r in Hlast.
    apply bool_decide_eq_false in Hlast.
    unfold recorded. rewrite Hev, (bool_decide_eq_false_2 _ Hlast). exact Hi. }
  split_and!.
  - destruct (run_ok events ExperienceForgetting.new) as (se & rs & Hrun).
    destruct (Hinv se rs Hrun) as [Hi Hi'].
    exists se, rs. split_and!; [done| |].
    + unfold ExperienceForgetting.result. rewrite result_of_key.
      by rewrite (proj2 (difference_None _ _) (or_introl Hi)).
    + intros Hev. eexists. rewrite (after_eval_exp_key se strategy k Hev).
      rewrite (proj2 (difference_None _ _) (or_introl (Hi' Hev))).
      split; [done|].
      unfold ExperienceForgetting.result, ExperienceForgetting.with_forgetting.
      cbn [ExperienceForgetting.forgetting]. rewrite result_of_key.
      by rewrite (proj2 (difference_None _ _) (or_introl (Hi' Hev))).
  - intros Hev. by apply stream_run_ok.
  - intros ss rs Hrun.
    destruct (stream_run_as_experience events _ _ _ Hrun) as [rs' Hrun'].
    destruct (Hinv _ _ Hrun') as [Hi Hi']. simpl in Hi.
    split.
    + unfold StreamForgetting.exp_result. rewrite result_of_key.
      by rewrite (proj2 (difference_None _ _) (or_introl Hi)).
    + intros Hev. specialize (Hi' Hev).
      change (recorded (as_experience ss)) with (stream_recorded ss) in Hi'.
      eexists. rewrite (stream_after_eval_exp_key ss strategy k Hev).
      rewrite (proj2 (difference_None _ _) (or_introl Hi')).
      split_and!; [done|done|].
      unfold StreamForgetting.exp_result, StreamForgetting.with_stream_forgetting,
        StreamForgetting.with_forgetting.
      cbn [StreamForgetting.forgetting]. rewrite result_of_key.
      by rewrite (proj2 (difference_None _ _) (or_introl Hi')).
Qed.

(** C7: the stream aggregator emits one record per evaluation stream, at
    [after_eval], with the current result of its mean under the name made of
    the phase and of the stream type; [after_eval_exp] emits nothing. *)
Theorem C7_one_record_per_stream ss strategy :
  StreamForgetting.after_eval ss strategy
  = (ss, Some [stream_record strategy
                 (Mean.result (StreamForgetting.stream_forgetting ss))])
  ∧ (∀ ss' r, StreamForgetting.after_eval_exp ss strategy = Ok (ss', r) → r = None)
  ∧ (∀ events ss' rs,
       StreamForgetting.run ss events = Ok (ss', rs) →
       length rs = length (filter (λ e, e.1 = AfterEval) events))
  ∧ (∀ env exps,
       Forall (λ e : Z * list (Y * L), e.2 ≠ []) exps →
       ∃ ss',
         StreamForgetting.run ss (eval_events env exps)
         = Ok (ss', [stream_record env
                       (Mean.result (StreamForgetting.stream_forgetting ss'))])).
Proof.
  split_and!.
  - reflexivity.
  - intros ss' r Hr. destruct (StreamForgetting.eval_exp_id ss) as [i|] eqn:Hev.
    + rewrite (stream_after_eval_exp_key ss strategy i Hev) in Hr.
      by injection Hr as <- <-.
    + by rewrite (stream_after_eval_exp_None ss strategy Hev) in Hr.
  - intros events. clear strategy. revert ss.
    induction events as [|[h strategy] events IH]; intros ss ss' rs Hrun.
    + simpl in Hrun. by injection Hrun as <- <-.
    + destruct (stream_run_cons_inv _ _ _ _ _ _ Hrun) as (s & r & rs1 & Hon & Hrun1 & ->).
      rewrite length_app, (IH _ _ _ Hrun1), filter_cons. cbn [fst].
      destruct h; simpl in Hon;
        try (injection Hon as <- <-; by rewrite decide_False).
      * destruct (StreamForgetting.eval_exp_id ss) as [i|] eqn:Hev.
        -- rewrite (stream_after_eval_exp_key ss strategy i Hev) in Hon.
           injection Hon as <- <-. by rewrite decide_False.
        -- by rewrite (stream_after_eval_exp_None ss strategy Hev) in Hon.
      * injection Hon as <- <-. by rewrite decide_True.
  - intros env exps Hexps.
    destruct (stream_run_eval_events ss env exps Hexps) as (ss' & Hrun & Hv).
    exists ss'. by rewrite Hrun, Hv.
Qed.

(** C10: [StreamForgetting.result(k)] does not look at [k], it returns the
    current result of the mean for every [k], [None] included, whereas
    [ExperienceForgetting.result(k)] is the query of the tracker for [k]. *)
Theorem C10_stream_result_ignores_key :
  (∀ ss k, StreamForgetting.result ss k
           = Mean.result (StreamForgetting.stream_forgetting ss))
  ∧ (∀ ss k k', StreamForgetting.result ss k = StreamForgetting.result ss k')
  ∧ (∀ se k, ExperienceForgetting.result se k
             = Forgetting.result (ExperienceForgetting.forgetting se) k)
  ∧ (∃ se k k', ExperienceForgetting.result se k ≠ ExperienceForgetting.result se k').
Proof.
  split_and!; try done.
  exists (ExperienceForgetting.update
            (ExperienceForgetting.update ExperienceForgetting.new (Some 0%Z) 1 true)
            (Some 0%Z) 0 false), (Some 0%Z), (Some 1%Z).
  unfold ExperienceForgetting.result. rewrite !result_of_key. done.
Qed.

End Aggregators.

(** ** The scenarios of the specification *)

Lemma accuracy_090 : accuracy_of (Accuracy0 := pair_accuracy) [mb_090] = Q2Qc (9 # 10).
Proof. apply Qc_is_canon. reflexivity. Qed.

Lemma accuracy_070 : accuracy_of (Accuracy0 := pair_accuracy) [mb_070] = Q2Qc (7 # 10).
Proof. apply Qc_is_canon. reflexivity. Qed.

Lemma C1_initial_then_forgetting_witness :
  ∃ s0 rs0 s1 s2 rs2 s3,
    ExperienceForgetting.run exp_new
      [(BeforeTrainingExp, at_experience test_env 0); (BeforeEval, test_env)]
    = Ok (s0, rs0)
    ∧ ExperienceForgetting.run s0 (eval_exp_events test_env (0%Z, [mb_090])) = Ok (s1, [])
    ∧ Forgetting.initial (ExperienceForgetting.forgetting s1) !! Some 0%Z
      = Some (Q2Qc (9 # 10))
    ∧ ExperienceForgetting.result s1 (Some 0%Z) = Ok VNone
    ∧ ExperienceForgetting.run s1
        [(AfterEval, test_env); (BeforeTrainingExp, at_experience test_env 1);
         (BeforeEval, test_env)]
      = Ok (s2, rs2)
    ∧ ExperienceForgetting.run s2 (eval_exp_events test_env (0%Z, [mb_070]))
      = Ok (s3, [exp_record (at_experience test_env 0) (VFloat (Q2Qc (2 # 10)))])
    ∧ Forgetting.last (ExperienceForgetting.forgetting s3) !! Some 0%Z
      = Some (Q2Qc (7 # 10)).
Proof.
  assert (Q2Qc (9 # 10) - Q2Qc (7 # 10) = Q2Qc (2 # 10)) as Hdiff
    by (apply Qc_is_canon; reflexivity).
  rewrite <- Hdiff, <- accuracy_090, <- accuracy_070.
  apply (@C1_initial_then_forgetting _ _ _ pair_accuracy exp_new test_env test_env
           0%Z 1%Z [mb_090] [mb_070] [] [] []).
  - discriminate.
  - discriminate.
  - discriminate.
  - constructor.
  - constructor.
  - constructor.
Defined.

Lemma C3_stream_mean_witness :
  ∃ ss',
    StreamForgetting.run stream_trained
      (eval_events test_env [(0%Z, [mb_070]); (1%Z, [mb_050])])
    = Ok (ss', [stream_record test_env (Some (Q2Qc (25 # 100)))]).
Proof.
  destruct (@C3_stream_mean _ _ _ pair_accuracy exp_trained stream_trained test_env
              [(0%Z, [mb_070]); (1%Z, [mb_050])])
    as (se' & rs & ss' & Hexp & _ & Hstream).
  - reflexivity.
  - reflexivity.
  - repeat constructor; discriminate.
  - exists ss'. rewrite Hstream.
    assert (mean_of (floats rs) = Some (Q2Qc (25 # 100))) as ->; [|done].
    vm_compute in Hexp. injection Hexp as _ <-.
    unfold floats, mean_of. cbn [omap value length foldr].
    apply (f_equal Some), Qc_is_canon. reflexivity.
Defined.

Lemma C4_never_trained_witness :
  (∃ se rs,
     ExperienceForgetting.run exp_new untrained_events = Ok (se, rs)
     ∧ ExperienceForgetting.result se (Some 5%Z) = Ok VNone
     ∧ (ExperienceForgetting.eval_exp_id se = Some 5%Z →
        ∃ se', ExperienceForgetting.after_eval_exp se (at_experience test_env 5)
               = Ok (se', None)
               ∧ ExperienceForgetting.result se' (Some 5%Z) = Ok VNone))
  ∧ (iterations_first false untrained_events = true →
     ∃ ss rs, StreamForgetting.run stream_new untrained_events = Ok (ss, rs))
  ∧ (∀ ss rs,
       StreamForgetting.run stream_new untrained_events = Ok (ss, rs) →
       StreamForgetting.exp_result ss (Some 5%Z) = Ok VNone
       ∧ (StreamForgetting.eval_exp_id ss = Some 5%Z →
          ∃ ss', StreamForgetting.after_eval_exp ss (at_experience test_env 5)
                 = Ok (ss', None)
                 ∧ StreamForgetting.stream_forgetting ss'
                   = StreamForgetting.stream_forgetting ss
                 ∧ StreamForgetting.exp_result ss' (Some 5%Z) = Ok VNone)).
Proof.
  apply (@C4_never_trained _ _ _ pair_accuracy 5%Z untrained_events
           (at_experience test_env 5)).
  reflexivity.
Defined.

Lemma C5_result_without_key_witness :
  ∃ d1 d2,
    Forgetting.result
      (Forgetting.calls Forgetting.new
         [Forgetting.UpdateInitial (Some 0%Z) 1; Forgetting.UpdateLast (Some 0%Z) 0;
          Forgetting.UpdateInitial (Some 1%Z) 1])
      None = Ok (VDict d1)
    ∧ Forgetting.result
        (Forgetting.calls Forgetting.new
           [Forgetting.UpdateInitial (Some 1%Z) 1; Forgetting.UpdateLast (Some 0%Z) 0;
            Forgetting.UpdateInitial (Some 0%Z) 1])
        None = Ok (VDict d2)
    ∧ dom d1 = dom d2.
Proof.
  destruct (C5_result_without_key Forgetting.new) as (_ & _ & _ & _ & _ & Horder).
  apply Horder.
  - repeat constructor.
  - apply Permutation_rev.
Defined.

Lemma C7_one_record_per_stream_witness :
  ∃ ss',
    StreamForgetting.run stream_trained
      (eval_events test_env [(0%Z, [mb_070]); (1%Z, [mb_050])])
    = Ok (ss', [stream_record test_env
                  (Mean.result (StreamForgetting.stream_forgetting ss'))]).
Proof.
  destruct (@C7_one_record_per_stream _ _ _ pair_accuracy stream_trained test_env)
    as (_ & _ & _ & Hstream).
  apply Hstream. repeat constructor; discriminate.
Defined.

Lemma C8_initial_overwritten_witness :
  ∃ s0 rs0 s1 rs1,
    ExperienceForgetting.run exp_trained
      [(BeforeTrainingExp, at_experience test_env 0); (BeforeEval, test_env)]
    = Ok (s0, rs0)
    ∧ ExperienceForgetting.run s0 (eval_exp_events test_env (0%Z, [mb_070]))
      = Ok (s1, rs1)
    ∧ Forgetting.initial (ExperienceForgetting.forgetting s1)
      = <[Some 0%Z := Q2Qc (7 # 10)]>
          (Forgetting.initial (ExperienceForgetting.forgetting s0)).
Proof.
  rewrite <- accuracy_070.
  destruct (@C8_initial_overwritten _ _ _ pair_accuracy exp_trained test_env test_env
              0%Z [mb_070] [(BeforeEval, test_env)]) as [_ Hlater].
  apply Hlater.
  - discriminate.
  - repeat constructor. discriminate.
Defined.

(** * Further properties of the module *)

(** ** The snapshot tracker *)

Lemma difference_update_other self k v init k' :
  k' ≠ k → difference (Forgetting.update self k v init) k' = difference self k'.
Proof.
  intros Hne. unfold difference.
  destruct init; simpl; by rewrite lookup_insert_ne.
Qed.

(** X1: the dict [result()] returns and the query [result(k)] agree on every
    integer key: the dict maps [k] to [x] exactly when [result(k)] is [x], and
    has no entry for [k] exactly when [result(k)] is [None]. *)
Theorem X1_result_dict_agrees (self : Forgetting.t) :
  ∃ d, Forgetting.result self None = Ok (VDict d)
       ∧ (∀ (k : Z) x,
            d !! Some k = Some x ↔ Forgetting.result self (Some k) = Ok (VFloat x))
       ∧ (∀ k : Z,
            d !! Some k = None ↔ Forgetting.result self (Some k) = Ok VNone).
Proof.
  destruct (result_of_None self) as (d & Hd & Hlook).
  exists d. split_and!; [done| |].
  - intros k x. rewrite Hlook, result_of_key.
    destruct (difference self (Some k)); split; congruence.
  - intros k. rewrite Hlook, result_of_key.
    destruct (difference self (Some k)); split; congruence.
Qed.

(** X2: an update of the key [k] leaves [result(k')] as it was for every
    other integer key [k'], whichever dict is written. *)
Theorem X2_update_other_key (self : Forgetting.t) (k : pykey) v init (k' : Z) :
  Some k' ≠ k →
  Forgetting.result (Forgetting.update self k v init) (Some k')
  = Forgetting.result self (Some k').
Proof.
  intros Hne. rewrite !result_of_key. by rewrite difference_update_other.
Qed.

Lemma X2_update_other_key_witness :
  Forgetting.result
    (Forgetting.update
       (Forgetting.update_last (Forgetting.update_initial Forgetting.new (Some 1%Z) 1)
          (Some 1%Z) 0)
       (Some 2%Z) 1 false)
    (Some 1%Z)
  = Forgetting.result
      (Forgetting.update_last (Forgetting.update_initial Forgetting.new (Some 1%Z) 1)
         (Some 1%Z) 0)
      (Some 1%Z).
Proof.
  apply X2_update_other_key. discriminate.
Defined.

(** X3: in one dict of one key the last write wins, and two updates commute
    when they write different keys or different dicts. *)
Theorem X3_updates_compose (self : Forgetting.t) (k k' : pykey) v w (i j : bool) :
  Forgetting.update (Forgetting.update self k v i) k w i = Forgetting.update self k w i
  ∧ (k ≠ k' ∨ i ≠ j →
     Forgetting.update (Forgetting.update self k v i) k' w j
     = Forgetting.update (Forgetting.update self k' w j) k v i).
Proof.
  split.
  - destruct i; unfold Forgetting.update, Forgetting.update_initial,
      Forgetting.update_last; simpl; by rewrite insert_insert_eq.
  - intros Hne.
    destruct i, j; unfold Forgetting.update, Forgetting.update_initial,
      Forgetting.update_last; simpl; try done.
    + destruct Hne as [Hne|Hne]; [|done]. f_equal. by apply insert_insert_ne.
    + destruct Hne as [Hne|Hne]; [|done]. f_equal. by apply insert_insert_ne.
Qed.

Lemma X3_updates_compose_witness :
  Forgetting.update (Forgetting.update Forgetting.new (Some 0%Z) 1 true) (Some 0%Z) 0 false
  = Forgetting.update (Forgetting.update Forgetting.new (Some 0%Z) 0 false) (Some 0%Z) 1 true.
Proof.
  destruct (X3_updates_compose Forgetting.new (Some 0%Z) (Some 0%Z) 1 0 true false)
    as [_ Hcomm].
  apply Hcomm. right. discriminate.
Defined.

(** X4: [result()] is the empty dict exactly when no key is in both dicts;
    so it is for a new tracker ("at initialization, this metric returns an
    empty dictionary"), after [reset()] and after [reset_last()], and an
    [update_last] is lost by the [reset_last()] that follows it. *)
Theorem X4_empty_result (self : Forgetting.t) :
  (Forgetting.result self None = Ok (VDict ∅)
   ↔ ∀ k, Forgetting.initial self !! k = None ∨ Forgetting.last self !! k = None)
  ∧ Forgetting.result Forgetting.new None = Ok (VDict ∅)
  ∧ Forgetting.result (Forgetting.reset self) None = Ok (VDict ∅)
  ∧ Forgetting.result (Forgetting.reset_last self) None = Ok (VDict ∅)
  ∧ (∀ k v, Forgetting.reset_last (Forgetting.update_last self k v)
            = Forgetting.reset_last self).
Proof.
  assert (∀ f, Forgetting.result f None = Ok (VDict ∅)
               ↔ ∀ k, Forgetting.initial f !! k = None ∨ Forgetting.last f !! k = None)
    as Hempty.
  { intros f. destruct (result_of_None f) as (d & Hd & Hlook). rewrite Hd. split.
    - intros [= ->] k. apply difference_None. by rewrite <- Hlook, lookup_empty.
    - intros Hk. do 2 f_equal. apply map_eq. intros k.
      rewrite Hlook, lookup_empty. by apply difference_None. }
  split_and!; [apply Hempty| | | |done].
  - apply Hempty. intros k. left. apply lookup_empty.
  - apply Hempty. intros k. left. apply lookup_empty.
  - apply Hempty. intros k. right. apply lookup_empty.
Qed.

(** ** The experience aggregator *)

Section ExperienceFurther.
Context {Y L A : Type} `{!Accuracy Y L A}.
Import ExperienceForgetting.

Implicit Types (self : ExperienceForgetting.t A) (strategy env : Strategy Y L).

Lemma after_eval_exp_no_key self strategy :
  eval_exp_id self = None →
  ∃ d, after_eval_exp self strategy
       = Ok (with_forgetting self (recorded self), Some [exp_record strategy (VDict d)])
       ∧ ∀ k, d !! k = difference (recorded self) k.
Proof.
  intros Hev. unfold after_eval_exp, recorded.
  destruct (decide (train_exp_id self = eval_exp_id self)) as [Heq|Hne].
  - rewrite (bool_decide_eq_true_2 _ Heq).
    unfold result, _package_result, result, update; simpl. rewrite Hev.
    destruct (result_of_None
                (Forgetting.update_initial (forgetting self) None
                   (acc_result (_current_accuracy self)))) as (d & -> & Hd).
    exists d. by split.
  - rewrite (bool_decide_eq_false_2 _ Hne).
    unfold result, _package_result, result, update; simpl. rewrite Hev.
    destruct (result_of_None
                (Forgetting.update_last (forgetting self) None
                   (acc_result (_current_accuracy self)))) as (d & -> & Hd).
    exists d. by split.
Qed.

(** What [after_eval_exp] returns: nothing, or one record of this metric. *)
Lemma after_eval_exp_output self strategy :
  ∃ r, after_eval_exp self strategy = Ok (with_forgetting self (recorded self), r)
       ∧ (r = None ∨ ∃ v, r = Some [exp_record strategy v]).
Proof.
  destruct (eval_exp_id self) as [i|] eqn:Hev.
  - rewrite (after_eval_exp_key self strategy i Hev).
    eexists. split; [done|]. destruct (difference _ (Some i)); eauto.
  - destruct (after_eval_exp_no_key self strategy Hev) as (d & -> & _). eauto.
Qed.

(** A hook keeps the tracker, empties its last values or records the
    evaluation. *)
Lemma on_tracker_any h self strategy self' r :
  on h self strategy = Ok (self', r) →
  forgetting self' = forgetting self
  ∨ forgetting self' = Forgetting.reset_last (forgetting self)
  ∨ forgetting self' = recorded self.
Proof.
  intros Hon.
  destruct (decide (h = BeforeTrainingExp)) as [->|Hh].
  - simpl in Hon. injection Hon as <- <-. by left.
  - by destruct (on_tracker _ _ _ _ _ Hon Hh) as [_ ?].
Qed.

(** X5: no sequence of hook calls makes [ExperienceForgetting] raise; records
    come from [after_eval_exp] only, at most one per call, and each names this
    metric as its origin. *)
Theorem X5_experience_run_total self events :
  ∃ self' rs,
    run self events = Ok (self', rs)
    ∧ (length rs ≤ length (filter (λ e, e.1 = AfterEvalExp) events))%nat
    ∧ Forall (λ r, origin r = ExperienceForgettingMetric) rs.
Proof.
  revert self. induction events as [|[h strategy] events IH]; intros self.
  - exists self, []. simpl. split_and!; [done|lia|done].
  - assert (∃ self1 r, on h self strategy = Ok (self1, r)
                       ∧ (length (emitted r)
                          ≤ length (filter (λ e : hook * Strategy Y L, e.1 = AfterEvalExp)
                                      [(h, strategy)]))%nat
                       ∧ Forall (λ r, origin r = ExperienceForgettingMetric) (emitted r))
      as (self1 & r & Hon & Hlen & Horigin).
    { destruct h; simpl; try (eexists _, _; split_and!; [done|simpl; lia|done]).
      destruct (after_eval_exp_output self strategy) as (r & -> & [->|[v ->]]);
        eexists _, _; (split_and!; [done|simpl; lia|]); simpl; [done|].
      by constructor. }
    destruct (IH self1) as (self2 & rs & Hrun & Hlen' & Horigin').
    exists self2, (emitted r ++ rs).
    rewrite (run_cons _ _ _ _ _ _ Hon), Hrun. split_and!; [done| |].
    + change ((h, strategy) :: events) with ([(h, strategy)] ++ events).
      rewrite filter_app, !length_app. lia.
    + by apply Forall_app.
Qed.

(** X6: when the evaluated experience [i] is known, [after_eval_exp] writes
    the accumulated accuracy in [initial] if [i] is the trained experience
    and in [last] otherwise, keeps the ids and the accumulator, and emits one
    record exactly when [i] then has both values; its value is the initial
    value minus the last one, its name and position those of the strategy. *)
Theorem X6_after_eval_exp_record self strategy (i : Z) :
  eval_exp_id self = Some i →
  ∃ self' r,
    after_eval_exp self strategy = Ok (self', r)
    ∧ forgetting self'
      = Forgetting.update (forgetting self) (Some i)
          (acc_result (_current_accuracy self))
          (bool_decide (train_exp_id self = Some i))
    ∧ _current_accuracy self' = _current_accuracy self
    ∧ eval_exp_id self' = eval_exp_id self
    ∧ train_exp_id self' = train_exp_id self
    ∧ (r = None ↔
       Forgetting.initial (forgetting self') !! Some i = None
       ∨ Forgetting.last (forgetting self') !! Some i = None)
    ∧ (∀ a b,
         Forgetting.initial (forgetting self') !! Some i = Some a →
         Forgetting.last (forgetting self') !! Some i = Some b →
         r = Some [ {| origin := ExperienceForgettingMetric;
                       name := metric_name_exp strategy;
                       value := VFloat (a - b);
                       x_plot := global_counter strategy |} ]).
Proof.
  intros Hev. eexists _, _. split; [apply (after_eval_exp_key self strategy i Hev)|].
  unfold recorded. rewrite Hev. cbn [forgetting with_forgetting].
  split_and!; try done.
  - rewrite <- difference_None. by destruct (difference _ (Some i)).
  - intros a b Ha Hb.
    by rewrite (proj2 (difference_Some _ _ (a - b)) (ex_intro _ a (ex_intro _ b
                  (conj Ha (conj Hb eq_refl))))).
Qed.

(** X7: when no eval iteration ever took place the evaluated experience is
    [None]: [after_eval_exp] then writes the accumulated accuracy under the
    key [None], and emits one record whose value is the dict of the
    forgetting of all keys that have both values. *)
Theorem X7_after_eval_exp_without_iteration self strategy :
  eval_exp_id self = None →
  ∃ self' d,
    after_eval_exp self strategy
    = Ok (self', Some [ {| origin := ExperienceForgettingMetric;
                           name := metric_name_exp strategy;
                           value := VDict d;
                           x_plot := global_counter strategy |} ])
    ∧ forgetting self'
      = Forgetting.update (forgetting self) None
          (acc_result (_current_accuracy self))
          (bool_decide (train_exp_id self = None))
    ∧ dom d = dom (Forgetting.initial (forgetting self'))
              ∩ dom (Forgetting.last (forgetting self'))
    ∧ ∀ k a b,
        Forgetting.initial (forgetting self') !! k = Some a →
        Forgetting.last (forgetting self') !! k = Some b →
        d !! k = Some (a - b).
Proof.
  intros Hev.
  destruct (after_eval_exp_no_key self strategy Hev) as (d & Hd & Hlook).
  eexists _, d. split; [exact Hd|].
  unfold recorded in *. rewrite Hev in *. cbn [forgetting with_forgetting].
  split_and!.
  - f_equal. by apply bool_decide_ext.
  - apply set_eq. intros k.
    rewrite elem_of_intersection, !elem_of_dom, Hlook.
    split.
    + intros [x (a & b & Ha & Hb & _)%difference_Some]. by rewrite Ha, Hb.
    + intros [[a Ha] [b Hb]]. exists (a - b). apply difference_Some. eauto.
  - intros k a b Ha Hb. rewrite Hlook. apply difference_Some. eauto.
Qed.

Lemma on_ids h self strategy self' r :
  on h self strategy = Ok (self', r) →
  train_exp_id self'
  = (if decide (h = BeforeTrainingExp) then Some (current_experience strategy)
     else train_exp_id self)
  ∧ eval_exp_id self'
    = (if decide (h = AfterEvalIteration) then Some (current_experience strategy)
       else eval_exp_id self).
Proof.
  intros Hon. destruct h; cbn [on] in Hon;
    try (injection Hon as <- <-; split; reflexivity).
  destruct (after_eval_exp_ok self strategy) as [r' Hr].
  rewrite Hr in Hon. injection Hon as <- <-. split; reflexivity.
Qed.

(** X8: over any sequence of hook calls the keys of [initial] only grow: an
    experience that has an initial value keeps one. *)
Theorem X8_initial_keys_grow self events :
  ∃ self' rs,
    run self events = Ok (self', rs)
    ∧ dom (Forgetting.initial (forgetting self))
      ⊆ dom (Forgetting.initial (forgetting self')).
Proof.
  revert self. induction events as [|[h strategy] events IH]; intros self.
  - exists self, []. by split.
  - destruct (on_ok h self strategy) as (self1 & r & Hon).
    destruct (IH self1) as (self2 & rs & Hrun & Hdom).
    exists self2, (emitted r ++ rs).
    rewrite (run_cons _ _ _ _ _ _ Hon), Hrun. split; [done|].
    etrans; [|exact Hdom].
    destruct (on_tracker_any _ _ _ _ _ Hon) as [-> | [-> | ->]]; try done.
    unfold recorded. destruct (bool_decide _); simpl; [|done].
    rewrite dom_insert. set_solver.
Qed.

(** X9: after any sequence of hook calls [train_exp_id] is the experience of
    the last [before_training_exp] call and [eval_exp_id] the experience of
    the last [after_eval_iteration] call; no other hook changes them. *)
Theorem X9_ids_follow_hooks self events :
  ∃ self' rs,
    run self events = Ok (self', rs)
    ∧ train_exp_id self' = last_experience BeforeTrainingExp (train_exp_id self) events
    ∧ eval_exp_id self' = last_experience AfterEvalIteration (eval_exp_id self) events.
Proof.
  revert self. induction events as [|[h strategy] events IH]; intros self.
  - exists self, []. by split.
  - destruct (on_ok h self strategy) as (self1 & r & Hon).
    destruct (IH self1) as (self2 & rs & Hrun & Ht & He).
    exists self2, (emitted r ++ rs).
    rewrite (run_cons _ _ _ _ _ _ Hon), Hrun.
    destruct (on_ids _ _ _ _ _ Hon) as [Ht1 He1].
    unfold last_experience in *. cbn [foldl fst snd].
    by rewrite Ht, He, Ht1, He1.
Qed.

(** X11: the evaluation of the experience [j] leaves the initial value, the
    last value and [result(k)] of every other experience [k] as they were. *)
Theorem X11_evaluation_frame self env (j k : Z) mbs :
  mbs ≠ [] →
  k ≠ j →
  ∃ self' rs,
    run self (eval_exp_events env (j, mbs)) = Ok (self', rs)
    ∧ Forgetting.initial (forgetting self') !! Some k
      = Forgetting.initial (forgetting self) !! Some k
    ∧ Forgetting.last (forgetting self') !! Some k
      = Forgetting.last (forgetting self) !! Some k
    ∧ result self' (Some k) = result self (Some k).
Proof.
  intros Hmbs Hne.
  destruct (run_eval_exp self env j mbs Hmbs) as (self' & Hrun & Hf & _).
  assert (Some k ≠ Some j) as Hne' by congruence.
  eexists _, _. split; [exact Hrun|].
  unfold result. rewrite Hf. unfold evaluated. split_and!.
  - destruct (bool_decide _); simpl; by rewrite ?lookup_insert_ne.
  - destruct (bool_decide _); simpl; by rewrite ?lookup_insert_ne.
  - rewrite !result_of_key. by rewrite difference_update_other.
Qed.

(** X12: the evaluation of an experience other than the trained one emits a
    record exactly when the experience has an initial value, the initial value
    minus the accuracy of this evaluation; the evaluation of the trained
    experience emits a record exactly when a last value of it is still in
    the tracker, the accuracy of this evaluation minus that last value. *)
Theorem X12_record_of_evaluation self env (k : Z) mbs :
  mbs ≠ [] →
  ∃ self',
    run self (eval_exp_events env (k, mbs))
    = Ok (self',
          if decide (train_exp_id self = Some k)
          then match Forgetting.last (forgetting self) !! Some k with
               | Some b => [exp_record (at_experience env k) (VFloat (accuracy_of mbs - b))]
               | None => []
               end
          else match Forgetting.initial (forgetting self) !! Some k with
               | Some a => [exp_record (at_experience env k) (VFloat (a - accuracy_of mbs))]
               | None => []
               end).
Proof.
  intros Hmbs.
  destruct (run_eval_exp self env k mbs Hmbs) as (self' & Hrun & _).
  exists self'. rewrite Hrun. do 2 f_equal.
  unfold evaluated, difference.
  destruct (decide (train_exp_id self = Some k)) as [Heq|Hne'].
  - rewrite (bool_decide_eq_true_2 _ Heq). simpl. rewrite lookup_insert_eq.
    by destruct (Forgetting.last (forgetting self) !! Some k).
  - rewrite (bool_decide_eq_false_2 _ Hne'). simpl. rewrite lookup_insert_eq.
    by destruct (Forgetting.initial (forgetting self) !! Some k).
Qed.

(** X13: [reset()] empties the tracker and nothing else: the ids and the
    accumulator are kept, so that the evaluation of the trained experience
    after a [reset()] emits nothing and leaves a tracker that holds its
    initial value only. *)
Theorem X13_reset_keeps_ids self env (k : Z) mbs :
  (∀ q, result (reset self) q = Forgetting.result Forgetting.new q)
  ∧ train_exp_id (reset self) = train_exp_id self
  ∧ eval_exp_id (reset self) = eval_exp_id self
  ∧ _current_accuracy (reset self) = _current_accuracy self
  ∧ (mbs ≠ [] →
     train_exp_id self = Some k →
     ∃ self',
       run (reset self) (eval_exp_events env (k, mbs)) = Ok (self', [])
       ∧ forgetting self'
         = Forgetting.update_initial Forgetting.new (Some k) (accuracy_of mbs)).
Proof.
  split_and!; try done.
  intros Hmbs Ht.
  destruct (run_eval_exp (reset self) env k mbs Hmbs) as (self' & Hrun & Hf & _).
  exists self'.
  change (train_exp_id (reset self)) with (train_exp_id self) in Hrun, Hf.
  change (forgetting (reset self)) with Forgetting.new in Hrun, Hf.
  rewrite Ht in Hrun, Hf. unfold evaluated in Hrun, Hf.
  rewrite bool_decide_eq_true_2 in Hrun, Hf by done.
  split; [|exact Hf]. rewrite Hrun.
  assert (difference
            (Forgetting.update Forgetting.new (Some k) (accuracy_of mbs) true) (Some k)
          = None) as ->; [|done].
  apply difference_None. right. apply lookup_empty.
Qed.

(** X15: an experience evaluated without any eval iteration does not set
    [eval_exp_id]: [after_eval_exp] then writes the accuracy of the reset
    accumulator under the key of the experience evaluated before it. *)
Theorem X15_no_iteration_stale_key self env (j k : Z) :
  eval_exp_id self = Some j →
  ∃ self' rs,
    run self (eval_exp_events env (k, [])) = Ok (self', rs)
    ∧ forgetting self'
      = Forgetting.update (forgetting self) (Some j) (acc_result acc_new)
          (bool_decide (train_exp_id self = Some j))
    ∧ eval_exp_id self' = Some j.
Proof.
  intros Hev. unfold eval_exp_events. cbn [fst snd map app].
  set (s1 := before_eval_exp self (at_experience env k)).
  assert (eval_exp_id s1 = Some j) as Hev1 by done.
  rewrite (run_cons BeforeEvalExp _ _ self s1 None eq_refl).
  rewrite (run_cons AfterEvalExp _ _ s1 _ _ (after_eval_exp_key s1 _ j Hev1)).
  simpl. eexists _, _. split; [done|]. simpl. split; [|done].
  unfold recorded. simpl. by rewrite Hev, acc_reset_new.
Qed.

End ExperienceFurther.

(** ** The two aggregators and the selector *)

Section AggregatorsFurther.
Context {Y L A : Type} `{!Accuracy Y L A}.

(** X10: driven by the same hook calls from their creation, the stream
    aggregator and the experience aggregator hold the same tracker, the same
    accumulator and the same ids. *)
Theorem X10_same_tracker (events : list (hook * Strategy Y L))
    (ss : StreamForgetting.t A) rs :
  StreamForgetting.run StreamForgetting.new events = Ok (ss, rs) →
  ∃ se rs',
    ExperienceForgetting.run ExperienceForgetting.new events = Ok (se, rs')
    ∧ ExperienceForgetting.forgetting se = StreamForgetting.forgetting ss
    ∧ ExperienceForgetting._current_accuracy se = StreamForgetting._current_accuracy ss
    ∧ ExperienceForgetting.eval_exp_id se = StreamForgetting.eval_exp_id ss
    ∧ ExperienceForgetting.train_exp_id se = StreamForgetting.train_exp_id ss.
Proof.
  intros Hrun.
  destruct (stream_run_as_experience events _ _ _ Hrun) as [rs' Hrun'].
  exists (as_experience ss), rs'. by split_and!.
Qed.

(** X14: [forgetting_metrics] returns a new [ExperienceForgetting] exactly
    when [experience] is set and a new [StreamForgetting] exactly when
    [stream] is set, the experience metric first, and nothing else. *)
Theorem X14_forgetting_metrics (experience stream : bool) :
  length (forgetting_metrics experience stream)
  = ((if experience then 1 else 0) + (if stream then 1 else 0))%nat
  ∧ (ExperiencePlugin ExperienceForgetting.new ∈ forgetting_metrics experience stream
     ↔ experience = true)
  ∧ (StreamPlugin StreamForgetting.new ∈ forgetting_metrics experience stream
     ↔ stream = true)
  ∧ (∀ m, m ∈ forgetting_metrics experience stream →
          m = ExperiencePlugin ExperienceForgetting.new
          ∨ m = StreamPlugin StreamForgetting.new)
  ∧ (∀ i j m m',
       forgetting_metrics experience stream !! i = Some m →
       forgetting_metrics experience stream !! j = Some m' →
       is_experience_plugin m = true →
       is_experience_plugin m' = false →
       (i < j)%nat).
Proof.
  destruct experience, stream; unfold forgetting_metrics; simpl; split_and!;
    try done;
    try (split; [done|]; intros _; repeat constructor);
    try (split; [|done]; intros Hin; repeat (apply elem_of_cons in Hin as [Hin|Hin];
           [discriminate Hin|]); by apply not_elem_of_nil in Hin);
    try (intros m Hin; repeat (apply elem_of_cons in Hin as [->|Hin]; [by eauto|]);
         by apply not_elem_of_nil in Hin);
    try (intros [|[|i]] [|[|j]] m m' Hi Hj Hm Hm'; simpl in *;
         simplify_eq; simpl in *; try done; lia).
Qed.

End AggregatorsFurther.

Lemma X10_same_tracker_witness :
  ∃ ss rs se rs',
    StreamForgetting.run stream_new
      (eval_events test_env [(0%Z, [mb_090]); (5%Z, [mb_080])]) = Ok (ss, rs)
    ∧ ExperienceForgetting.run exp_new
        (eval_events test_env [(0%Z, [mb_090]); (5%Z, [mb_080])]) = Ok (se, rs')
    ∧ ExperienceForgetting.forgetting se = StreamForgetting.forgetting ss
    ∧ ExperienceForgetting._current_accuracy se = StreamForgetting._current_accuracy ss
    ∧ ExperienceForgetting.eval_exp_id se = StreamForgetting.eval_exp_id ss
    ∧ ExperienceForgetting.train_exp_id se = StreamForgetting.train_exp_id ss.
Proof.
  destruct (stream_run_eval_events stream_new test_env
              [(0%Z, [mb_090]); (5%Z, [mb_080])]) as (ss & Hrun & _).
  { repeat constructor; discriminate. }
  destruct (@X10_same_tracker _ _ _ pair_accuracy _ ss _ Hrun)
    as (se & rs' & Hexp).
  eexists ss, _, se, rs'. split; [exact Hrun|exact Hexp].
Defined.

Lemma X6_after_eval_exp_record_witness :
  ∃ self' r,
    ExperienceForgetting.after_eval_exp exp_evaluating test_env = Ok (self', r)
    ∧ ExperienceForgetting.forgetting self'
      = Forgetting.update (ExperienceForgetting.forgetting exp_evaluating) (Some 0%Z)
          (acc_result (ExperienceForgetting._current_accuracy exp_evaluating))
          (bool_decide (ExperienceForgetting.train_exp_id exp_evaluating = Some 0%Z))
    ∧ ExperienceForgetting._current_accuracy self'
      = ExperienceForgetting._current_accuracy exp_evaluating
    ∧ ExperienceForgetting.eval_exp_id self'
      = ExperienceForgetting.eval_exp_id exp_evaluating
    ∧ ExperienceForgetting.train_exp_id self'
      = ExperienceForgetting.train_exp_id exp_evaluating
    ∧ (r = None ↔
       Forgetting.initial (ExperienceForgetting.forgetting self') !! Some 0%Z = None
       ∨ Forgetting.last (ExperienceForgetting.forgetting self') !! Some 0%Z = None)
    ∧ (∀ a b,
         Forgetting.initial (ExperienceForgetting.forgetting self') !! Some 0%Z = Some a →
         Forgetting.last (ExperienceForgetting.forgetting self') !! Some 0%Z = Some b →
         r = Some [ {| origin := ExperienceForgettingMetric;
                       name := metric_name_exp test_env;
                       value := VFloat (a - b);
                       x_plot := global_counter test_env |} ]).
Proof.
  apply (@X6_after_eval_exp_record _ _ _ pair_accuracy exp_evaluating test_env 0%Z).
  reflexivity.
Defined.

Lemma X7_after_eval_exp_without_iteration_witness :
  ∃ self' d,
    ExperienceForgetting.after_eval_exp exp_trained test_env
    = Ok (self', Some [ {| origin := ExperienceForgettingMetric;
                           name := metric_name_exp test_env;
                           value := VDict d;
                           x_plot := global_counter test_env |} ])
    ∧ ExperienceForgetting.forgetting self'
      = Forgetting.update (ExperienceForgetting.forgetting exp_trained) None
          (acc_result (ExperienceForgetting._current_accuracy exp_trained))
          (bool_decide (ExperienceForgetting.train_exp_id exp_trained = None))
    ∧ dom d = dom (Forgetting.initial (ExperienceForgetting.forgetting self'))
              ∩ dom (Forgetting.last (ExperienceForgetting.forgetting self'))
    ∧ ∀ k a b,
        Forgetting.initial (ExperienceForgetting.forgetting self') !! k = Some a →
        Forgetting.last (ExperienceForgetting.forgetting self') !! k = Some b →
        d !! k = Some (a - b).
Proof.
  apply (@X7_after_eval_exp_without_iteration _ _ _ pair_accuracy exp_trained test_env).
  reflexivity.
Defined.

Lemma X11_evaluation_frame_witness :
  ∃ self' rs,
    ExperienceForgetting.run exp_trained (eval_exp_events test_env (0%Z, [mb_070]))
    = Ok (self', rs)
    ∧ Forgetting.initial (ExperienceForgetting.forgetting self') !! Some 1%Z
      = Forgetting.initial (ExperienceForgetting.forgetting exp_trained) !! Some 1%Z
    ∧ Forgetting.last (ExperienceForgetting.forgetting self') !! Some 1%Z
      = Forgetting.last (ExperienceForgetting.forgetting exp_trained) !! Some 1%Z
    ∧ ExperienceForgetting.result self' (Some 1%Z)
      = ExperienceForgetting.result exp_trained (Some 1%Z).
Proof.
  apply (@X11_evaluation_frame _ _ _ pair_accuracy exp_trained test_env 0%Z 1%Z [mb_070]).
  - discriminate.
  - discriminate.
Defined.

Lemma X12_record_of_evaluation_witness :
  ∃ self',
    ExperienceForgetting.run exp_trained (eval_exp_events test_env (0%Z, [mb_070]))
    = Ok (self', [exp_record (at_experience test_env 0)
                    (VFloat (Q2Qc (9 # 10) - Q2Qc (7 # 10)))]).
Proof.
  rewrite <- accuracy_070.
  apply (@X12_record_of_evaluation _ _ _ pair_accuracy exp_trained test_env 0%Z [mb_070]).
  discriminate.
Defined.

Lemma X13_reset_keeps_ids_witness :
  ∃ self',
    ExperienceForgetting.run (ExperienceForgetting.reset exp_retrained)
      (eval_exp_events test_env (0%Z, [mb_070])) = Ok (self', [])
    ∧ ExperienceForgetting.forgetting self'
      = Forgetting.update_initial Forgetting.new (Some 0%Z) (Q2Qc (7 # 10)).
Proof.
  rewrite <- accuracy_070.
  destruct (@X13_reset_keeps_ids _ _ _ pair_accuracy exp_retrained test_env 0%Z [mb_070])
    as (_ & _ & _ & _ & Hrun).
  apply Hrun.
  - discriminate.
  - reflexivity.
Defined.

Lemma X14_forgetting_metrics_witness : (0 < 1)%nat.
Proof.
  destruct (@X14_forgetting_metrics _ _ _ pair_accuracy true true)
    as (_ & _ & _ & _ & Horder).
  apply (Horder 0%nat 1%nat (ExperiencePlugin exp_new) (StreamPlugin stream_new));
    reflexivity.
Defined.

Lemma X15_no_iteration_stale_key_witness :
  ∃ self' rs,
    ExperienceForgetting.run exp_evaluating (eval_exp_events test_env (1%Z, []))
    = Ok (self', rs)
    ∧ ExperienceForgetting.forgetting self'
      = Forgetting.update (ExperienceForgetting.forgetting exp_evaluating) (Some 0%Z)
          (acc_result acc_new)
          (bool_decide (ExperienceForgetting.train_exp_id exp_evaluating = Some 0%Z))
    ∧ ExperienceForgetting.eval_exp_id self' = Some 0%Z.
Proof.
  apply (@X15_no_iteration_stale_key _ _ _ pair_accuracy exp_evaluating test_env 0%Z 1%Z).
  reflexivity.
Defined.
